(** * Yarbo bridge: the local real-time connection manager

    A shallow embedding of [bridge/discovery.py] and of the
    [YarboMQTTClient] class of [bridge/mqtt_client.py], and the properties
    of address discovery, payload decoding, command/reply correlation, the
    breadcrumb trail and the reconnection thresholds that hold of them.

    Python values decoded from JSON are the inductive type [pyval]; the
    attributes of the client object are the fields of the record [state];
    a method is a function in the monad [Py], which threads the state and
    carries a raised exception next to the state reached when it was
    raised.  What the code obtains from outside the repository (the gzip,
    zlib and json modules, the broker, the network, the disk, the clock,
    the uuid generator) is an explicit argument or a field of an
    environment record.

    A callback or handler runs from start to end without another thread
    in between.  The one place where threads interleave in the model is the
    wait of [send_command]: the messages the network thread handles
    meanwhile are an argument of the call.  Values are compared by content;
    sharing is modelled for the payload dicts that callers pass to
    [send_command], which live in a heap and are passed by reference.
    Logging is left out. *)

From Stdlib Require Import ZArith Strings.Ascii Strings.Byte Floats.PrimFloat Uint63.
From stdpp Require Import gmap strings list fin_maps pretty.

Set Default Proof Using "Type".
Local Open Scope Z_scope.

(** ** Python values and exceptions *)

(** The values [json.loads] produces.  JSON objects have string keys. *)
#[warnings="-register-all"]
Inductive pyval : Type :=
  | PNone
  | PBool (b : bool)
  | PInt (z : Z)
  | PFloat (f : float)
  | PStr (s : string)
  | PList (l : list pyval)
  | PDict (d : gmap string pyval).

(** The exception classes the modelled code raises or catches; all of them
    derive from [Exception]. *)
Inductive exn : Type :=
  | AttributeError
  | TypeError
  | KeyError
  | ValueError
  | UnicodeError          (* a [ValueError] *)
  | UnicodeEncodeError    (* a [UnicodeError] *)
  | OverflowError
  | OSError
  | ConnectionError (msg : string)
  | RuntimeError (msg : string)
  | RecursionError.       (* a [RuntimeError] *)

Inductive pyres (A : Type) : Type :=
  | Ok (a : A)
  | Raise (e : exn).
Arguments Ok {A} a.
Arguments Raise {A} e.

Abbreviation bytes := (list byte).
Abbreviation pydict := (gmap string pyval).

(** [bool(v)] *)
Definition truthy (v : pyval) : bool :=
  match v with
  | PNone => false
  | PBool b => b
  | PInt z => negb (z =? 0)
  | PFloat f => negb (PrimFloat.eqb f 0%float)
  | PStr s => negb (String.eqb s "")
  | PList l => match l with [] => false | _ :: _ => true end
  | PDict d => negb (bool_decide (d = ∅))
  end.

(** [v is None] *)
Definition is_none (v : pyval) : bool :=
  match v with PNone => true | _ => false end.

(** [isinstance(v, dict)] *)
Definition isinstance_dict (v : pyval) : bool :=
  match v with PDict _ => true | _ => false end.

(** [v == "literal"] *)
Definition eq_str (v : pyval) (s : string) : bool :=
  match v with PStr s' => String.eqb s' s | _ => false end.

(** [v.get(k, dflt)]: only a dict has the method. *)
Definition py_get (v : pyval) (k : string) (dflt : pyval) : pyres pyval :=
  match v with
  | PDict d => Ok (default dflt (d !! k))
  | _ => Raise AttributeError
  end.

(** [v == k] for a number [v] and a small non-negative integer [k]
    ([True == 1] and [2.0 == 2] hold in Python). *)
Definition num_eq (v : pyval) (k : Z) : bool :=
  match v with
  | PInt z => z =? k
  | PBool b => (if b then 1 else 0) =? k
  | PFloat f => PrimFloat.eqb f (PrimFloat.of_uint63 (Uint63.of_Z k))
  | _ => false
  end.

(** [table.get(code)] for a dict literal keyed by small integers. *)
Definition int_table_get (table : list (Z * string)) (code : pyval)
  : pyres (option string) :=
  match code with
  | PList _ | PDict _ => Raise TypeError
  | _ => Ok (snd <$> List.find (λ kv, num_eq code (fst kv)) table)
  end.

(** [needle in hay] for two strings. *)
Fixpoint contains (needle hay : string) : bool :=
  String.prefix needle hay ||
  match hay with
  | EmptyString => false
  | String _ rest => contains needle rest
  end.

(** [topic.split("/")[-1]] *)
Fixpoint last_segment (acc s : string) : string :=
  match s with
  | EmptyString => acc
  | String c rest =>
      if Ascii.eqb c "/"%char then last_segment "" rest
      else last_segment (acc +:+ String c "") rest
  end.

(** [l[start:]] for a list, [start] of either sign. *)
Definition slice_from {A} (start : Z) (l : list A) : list A :=
  let n := Z.of_nat (length l) in
  let s := if start <? 0 then Z.max 0 (start + n) else Z.min start n in
  drop (Z.to_nat s) l.

(** What the modelled code takes from the Python library. *)
Record pylib : Type := {
  (** [gzip.GzipFile(fileobj=io.BytesIO(b)).read()] *)
  gzip_read : bytes → pyres bytes;
  (** [zlib.decompress(b)] *)
  zlib_decompress : bytes → pyres bytes;
  (** [json.loads(b.decode("utf-8"))]; [None] when it raises
      [JSONDecodeError] or [UnicodeDecodeError] *)
  json_loads_bytes : bytes → option pyval;
  (** [json.loads(s)] of a string; [None] when it raises *)
  json_loads : string → option pyval;
  (** [str(v)] of a float, a list or a dict *)
  py_repr : pyval → string;
  (** [threading.Event().wait(timeout)] on an event that is not set raises
      [OverflowError]: the timeout is more than the lock of the platform
      accepts, as [inf] and everything from [threading.TIMEOUT_MAX + 1]
      on are *)
  wait_overflows : float → bool;
}.

(** ["%s" % v] *)
Definition format_s (L : pylib) (v : pyval) : string :=
  match v with
  | PStr s => s
  | PInt z => pretty z
  | PNone => "None"
  | PBool true => "True"
  | PBool false => "False"
  | _ => py_repr L v
  end.

(** A text is modelled by the string of its code points, one character
    for each; the model covers the texts whose code points are below 256.

    [s.strip()]: of these code points [str.isspace] holds for 9 to 13, 28
    to 32, 133 (NEL) and 160 (no-break space). *)
Definition is_space (c : Ascii.ascii) : bool :=
  let n := Z.of_nat (Ascii.nat_of_ascii c) in
  ((9 <=? n) && (n <=? 13)) || ((28 <=? n) && (n <=? 32))
  || (n =? 133) || (n =? 160).

Fixpoint lstrip (s : string) : string :=
  match s with
  | String c rest => if is_space c then lstrip rest else s
  | EmptyString => EmptyString
  end.

Fixpoint rstrip (s : string) : string :=
  match s with
  | String c rest =>
      match rstrip rest with
      | EmptyString => if is_space c then EmptyString else String c EmptyString
      | kept => String c kept
      end
  | EmptyString => EmptyString
  end.

Definition strip (s : string) : string := rstrip (lstrip s).

(** The newline translation of a file opened for reading in text mode with
    [newline=None], as [Path.read_text] does: CR LF and a lone CR become
    LF. *)
Fixpoint universal_newlines (s : string) : string :=
  match s with
  | EmptyString => EmptyString
  | String c rest =>
      if Ascii.eqb c "013"%char then
        match rest with
        | String c' rest' =>
            if Ascii.eqb c' "010"%char
            then String "010"%char (universal_newlines rest')
            else String "010"%char (universal_newlines rest)
        | EmptyString => String "010"%char EmptyString
        end
      else String c (universal_newlines rest)
  end.

(** ** Address discovery ([bridge/discovery.py]) *)

Module Discovery.

(** The calls [discover_robot] can make, logged in the order made. *)
Inductive call : Type :=
  | CProbe (ip : string) (port : Z)
  | CLoadCache
  | CSaveCache (ip : pyval)
  | CLocalSubnet
  | CScan (subnet : string) (port : Z).

(** The network and the disk as discovery sees them. *)
Record env : Type := mkEnv {
  (** a TLS handshake with [ip:port] completes within the timeout *)
  reachable : string → Z → bool;
  (** when it does not: the exception of the connection attempt that the
      [except] of [_probe_port] does not catch, if there is one; a host
      name with an empty or over-long label makes
      [socket.create_connection] raise [UnicodeError] *)
  probe_error : string → Z → option exn;
  (** the text of [.robot_ip_cache]; [None] when the file does not exist *)
  cache_file : option string;
  (** reading, respectively writing, the cache file does not raise *)
  disk_readable : bool;
  disk_writable : bool;
  (** a write of this text that raises does so after [open] has emptied
      the file (the text does not encode, or the device fails), not
      before *)
  truncating : string → bool;
  (** the /24 of the default-route interface, as [_get_local_subnet]
      computes it; [None] when that raises *)
  local_subnet : option string;
  (** [ipaddress.IPv4Network(subnet, strict=False).hosts()]; [None] when
      the constructor raises [ValueError] *)
  network_hosts : string → option (list string);
  calls : list call;
}.

Definition Io (A : Type) : Type := env → env * A.

Definition io_ret {A} (a : A) : Io A := λ e, (e, a).
Definition io_bind {A B} (m : Io A) (k : A → Io B) : Io B :=
  λ e, let '(e1, a) := m e in k a e1.

(** Reading the environment. *)
Definition ask {A} (f : env → A) : Io A := λ e, (e, f e).

Declare Scope io_scope.
Delimit Scope io_scope with io.
Bind Scope io_scope with Io.
Notation "x ← y ; z" := (io_bind y (λ x, z))
  (at level 20, y at level 100, z at level 200, only parsing) : io_scope.
Notation "y ;; z" := (io_bind y (λ _, z))
  (at level 100, z at level 200, only parsing, right associativity) : io_scope.
Local Open Scope io_scope.

Definition record (c : call) : Io unit := λ e,
  (mkEnv (reachable e) (probe_error e) (cache_file e) (disk_readable e)
         (disk_writable e) (truncating e) (local_subnet e) (network_hosts e)
         (calls e ++ [c]), tt).

Definition write_cache (text : string) : Io unit := λ e,
  (mkEnv (reachable e) (probe_error e) (Some text) (disk_readable e)
         (disk_writable e) (truncating e) (local_subnet e) (network_hosts e)
         (calls e), tt).

(** Sequencing of calls that may raise. *)
Definition io_bind_ok {A B} (m : Io (pyres A)) (k : A → Io (pyres B))
  : Io (pyres B) :=
  λ e, match m e with
       | (e1, Ok a) => k a e1
       | (e1, Raise ex) => (e1, Raise ex)
       end.
Notation "x ⇐ y ; z" := (io_bind_ok y (λ x, z))
  (at level 20, y at level 100, z at level 200, only parsing) : io_scope.

Definition _PROBE_TIMEOUT : float := 1.5%float.
Definition _MAX_SCAN_THREADS : nat := 50.

(** [_probe_port(ip, port, timeout)]: the exceptions of the connection
    attempt that are an [OSError] or an [ssl.SSLError] are caught and give
    [False]; any other is raised to the caller. *)
Definition _probe_port (ip : string) (port : Z) (timeout : float)
  : Io (pyres bool) :=
  record (CProbe ip port);;
  ask (λ e, if reachable e ip port then Ok true
            else match probe_error e ip port with
                 | Some ex => Raise ex
                 | None => Ok false
                 end).

Definition _get_local_subnet : Io (option string) :=
  record CLocalSubnet;;
  ask local_subnet.

(** [load_cached_ip()] *)
Definition load_cached_ip : Io (option string) :=
  record CLoadCache;;
  ask (λ e,
    if disk_readable e then
      match cache_file e with
      | Some text =>
          let ip := strip (universal_newlines text) in
          if negb (String.eqb ip "") then Some ip else None
      | None => None
      end
    else None).

(** [save_cached_ip(ip)]: [write_text] raises for an [ip] that is not a
    string, before it opens the file, and on an error of the disk or of
    the encoding, which may come after the file has been opened and so
    emptied; all are caught and logged. *)
Definition save_cached_ip (ip : pyval) : Io unit :=
  record (CSaveCache ip);;
  writable ← ask disk_writable;
  emptied ← ask truncating;
  match ip with
  | PStr text =>
      if writable : bool then write_cache text
      else if emptied text : bool then write_cache ""
      else io_ret tt
  | _ => io_ret tt
  end.

(** The body of a probe thread of [_scan_subnet], [_check(ip_str)].  An
    exception that the probe raises ends the thread, with nothing added to
    the results. *)
Definition _check (port : Z) (exclude_ip : option string)
    (results : list string) (ip_str : string) : Io (list string) :=
  if bool_decide (Some ip_str = exclude_ip) then io_ret results
  else
    up ← _probe_port ip_str port _PROBE_TIMEOUT;
    io_ret (match up with
            | Ok true => results ++ [ip_str]
            | _ => results
            end).

(** Joining the started threads.  The scan is modelled under the schedule
    in which a probe finishes when its thread is joined, in the order the
    threads were started. *)
Fixpoint join_threads (port : Z) (exclude_ip : option string)
    (threads : list string) (results : list string) : Io (list string) :=
  match threads with
  | [] => io_ret results
  | ip_str :: rest =>
      results ← _check port exclude_ip results ip_str;
      join_threads port exclude_ip rest results
  end.

(** The loop [for host in network.hosts()] of [_scan_subnet], with the
    threads started and not yet joined, and the final join. *)
Fixpoint scan_loop (port : Z) (exclude_ip : option string)
    (hosts threads results : list string) : Io (list string) :=
  match hosts with
  | [] => join_threads port exclude_ip threads results
  | ip_str :: rest =>
      let threads := threads ++ [ip_str] in
      if bool_decide (_MAX_SCAN_THREADS ≤ length threads)%nat then
        results ← join_threads port exclude_ip threads results;
        match results with
        | _ :: _ => io_ret results
        | [] => scan_loop port exclude_ip rest [] results
        end
      else
        match results with
        | _ :: _ => join_threads port exclude_ip threads results
        | [] => scan_loop port exclude_ip rest threads results
        end
  end.

(** [_scan_subnet(subnet, port, exclude_ip)] *)
Definition _scan_subnet (subnet : string) (port : Z)
    (exclude_ip : option string) : Io (option string) :=
  record (CScan subnet port);;
  hosts ← ask (λ e, network_hosts e subnet);
  match hosts with
  | None => io_ret None
  | Some hosts =>
      results ← scan_loop port exclude_ip hosts [] [];
      io_ret (head results)
  end.

(** [discover_robot(configured_ip, port, subnet)]; an absent
    [configured_ip] is the empty string, as in the signature.  What the
    probe of the configured or of the cached address raises is raised to
    the caller. *)
Definition discover_robot (configured_ip : string) (port : Z)
    (subnet : option string) : Io (pyres (option string)) :=
  (* 1. Try configured IP *)
  hit ⇐ (if negb (String.eqb configured_ip "") then
           _probe_port configured_ip port _PROBE_TIMEOUT
         else io_ret (Ok false));
  if hit : bool then
    save_cached_ip (PStr configured_ip);;
    io_ret (Ok (Some configured_ip))
  else
    (* 2. Try cached IP (if different from configured) *)
    cached ← load_cached_ip;
    hit ⇐ (match cached with
           | Some ip =>
               if negb (String.eqb ip "") && negb (String.eqb ip configured_ip)
               then _probe_port ip port _PROBE_TIMEOUT
               else io_ret (Ok false)
           | None => io_ret (Ok false)
           end);
    if hit : bool then io_ret (Ok cached)
    else
      (* 3. Subnet scan *)
      scan_subnet ← (match subnet with
                     | Some s => if negb (String.eqb s "") then io_ret subnet
                                 else _get_local_subnet
                     | None => _get_local_subnet
                     end);
      match scan_subnet with
      | None => io_ret (Ok None)
      | Some s =>
          if String.eqb s "" then io_ret (Ok None)
          else
            found ← _scan_subnet s port None;
            match found with
            | Some ip =>
                if negb (String.eqb ip "") then
                  save_cached_ip (PStr ip);; io_ret (Ok found)
                else io_ret (Ok None)
            | None => io_ret (Ok None)
            end
      end.

(** The calls made by a run that starts in [e] and ends in [e']. *)
Definition calls_since (e e' : env) : list call :=
  drop (length (calls e)) (calls e').

Definition is_scan (c : call) : bool :=
  match c with CScan _ _ => true | _ => false end.

Definition is_cache_read (c : call) : bool :=
  match c with CLoadCache => true | _ => false end.

(** A home network for the examples: the data centre answers at
    192.168.68.102, the cache file names a stale address. *)
Definition example_env : env :=
  mkEnv (λ ip port, String.eqb ip "192.168.68.102" && (port =? 8883))
        (λ _ _, None)
        (Some "192.168.68.77") true true (λ _, false)
        (Some "192.168.68.0/24")
        (λ _, Some ["192.168.68.1"; "192.168.68.102"; "192.168.68.105"]) [].

End Discovery.

(** ** The client object ([bridge/mqtt_client.py]) *)

(** The paho client held in [self._client]. *)
Inductive paho_client : Type :=
  | PahoClient (client_id : string).

(** What can raise between the registration of a request and the test of
    the result code, lines 619 and 620 of [send_command]: for a payload
    with a lone surrogate in a string
    [json.dumps(payload, ensure_ascii=False).encode("utf-8")] raises
    [UnicodeEncodeError], for one nested too deep [RecursionError], and
    paho's [publish] raises [ValueError] for a topic with a wildcard. *)
Inductive publish_fault : Type :=
  | Unencodable
  | TooDeep
  | InvalidTopic.

Definition fault_exn (f : publish_fault) : exn :=
  match f with
  | Unencodable => UnicodeEncodeError
  | TooDeep => RecursionError
  | InvalidTopic => ValueError
  end.

(** What comes of one attempt to publish: paho reports a result code, or
    the attempt raises. *)
Inductive outcome : Type :=
  | Reports (rc : Z)
  | Fails (f : publish_fault).

(** One attempt to publish, lines 619 and 620: the topic, the payload
    dict handed to [json.dumps], and what came of it. *)
Record publication : Type := mkPublication {
  pub_topic : string;
  pub_payload : pydict;
  pub_outcome : outcome;
}.

Inductive event : Type :=
  | Subscribed (topic : string)
  | ThreadStarted (name : string)
  | RediscoveryRequested.   (* a call of [_try_rediscovery] *)

(** The two clock readings a handler takes while it processes a message:
    [datetime.now(timezone.utc).isoformat()] and [time.time()]. *)
Record instant : Type := mkInstant {
  now_iso : string;
  clock : float;
}.

Record state : Type := mkState {
  (** attributes of the [YarboMQTTClient] object, as [__init__] declares them *)
  robot_ip : string;
  serial : string;
  port : Z;
  use_tls : bool;
  (** [None] until [start()] has created the paho client *)
  _client : option paho_client;
  _connected : bool;
  (** req_id → response *)
  _command_responses : gmap string pyval;
  (** req_id → [threading.Event]; the boolean is the flag of the event *)
  _response_events : gmap string bool;
  (** the telemetry store; the model keeps its string-keyed entries *)
  _status : gmap string pyval;
  _live_map : pyval;
  _live_plans : pyval;
  _live_gps_ref : pyval;
  _live_schedules : pyval;
  _live_global_params : pyval;
  _device_msg : pyval;
  _preview_plan_path : pyval;
  (** list of dicts with the keys x, y and ts *)
  _trail : list pyval;
  (** [True] while a plan is running *)
  _trail_active : bool;
  _max_trail_points : Z;
  _control_commands : list pyval;
  _max_control_commands : Z;
  _disconnect_count : Z;
  _rediscovery_in_progress : bool;
  _last_rediscovery : float;
  (** around the object: the dict objects that callers pass as payloads, by reference *)
  heap : gmap nat pydict;
  (** what comes of the n-th attempt to publish *)
  publish_outcome : nat → outcome;
  (** the attempts to publish made so far *)
  outbox : list publication;
  (** subscriptions, thread starts and rediscovery requests so far *)
  trace : list event;
  (** the network and the cache file, shared with discovery *)
  disk : Discovery.env;
}.

(** Assignment to one attribute. *)
Definition set__connected (v : bool) (st : state) : state :=
  mkState (robot_ip st) (serial st) (port st) (use_tls st) (_client st) v
    (_command_responses st) (_response_events st) (_status st)
    (_live_map st) (_live_plans st) (_live_gps_ref st) (_live_schedules st)
    (_live_global_params st) (_device_msg st) (_preview_plan_path st)
    (_trail st) (_trail_active st) (_max_trail_points st)
    (_control_commands st) (_max_control_commands st) (_disconnect_count st)
    (_rediscovery_in_progress st) (_last_rediscovery st) (heap st)
    (publish_outcome st) (outbox st) (trace st) (disk st).
Definition set__command_responses (v : gmap string pyval) (st : state) : state :=
  mkState (robot_ip st) (serial st) (port st) (use_tls st) (_client st)
    (_connected st) v (_response_events st) (_status st) (_live_map st)
    (_live_plans st) (_live_gps_ref st) (_live_schedules st)
    (_live_global_params st) (_device_msg st) (_preview_plan_path st)
    (_trail st) (_trail_active st) (_max_trail_points st)
    (_control_commands st) (_max_control_commands st) (_disconnect_count st)
    (_rediscovery_in_progress st) (_last_rediscovery st) (heap st)
    (publish_outcome st) (outbox st) (trace st) (disk st).
Definition set__response_events (v : gmap string bool) (st : state) : state :=
  mkState (robot_ip st) (serial st) (port st) (use_tls st) (_client st)
    (_connected st) (_command_responses st) v (_status st) (_live_map st)
    (_live_plans st) (_live_gps_ref st) (_live_schedules st)
    (_live_global_params st) (_device_msg st) (_preview_plan_path st)
    (_trail st) (_trail_active st) (_max_trail_points st)
    (_control_commands st) (_max_control_commands st) (_disconnect_count st)
    (_rediscovery_in_progress st) (_last_rediscovery st) (heap st)
    (publish_outcome st) (outbox st) (trace st) (disk st).
Definition set__status (v : gmap string pyval) (st : state) : state :=
  mkState (robot_ip st) (serial st) (port st) (use_tls st) (_client st)
    (_connected st) (_command_responses st) (_response_events st) v
    (_live_map st) (_live_plans st) (_live_gps_ref st) (_live_schedules st)
    (_live_global_params st) (_device_msg st) (_preview_plan_path st)
    (_trail st) (_trail_active st) (_max_trail_points st)
    (_control_commands st) (_max_control_commands st) (_disconnect_count st)
    (_rediscovery_in_progress st) (_last_rediscovery st) (heap st)
    (publish_outcome st) (outbox st) (trace st) (disk st).
Definition set__live_map (v : pyval) (st : state) : state :=
  mkState (robot_ip st) (serial st) (port st) (use_tls st) (_client st)
    (_connected st) (_command_responses st) (_response_events st)
    (_status st) v (_live_plans st) (_live_gps_ref st) (_live_schedules st)
    (_live_global_params st) (_device_msg st) (_preview_plan_path st)
    (_trail st) (_trail_active st) (_max_trail_points st)
    (_control_commands st) (_max_control_commands st) (_disconnect_count st)
    (_rediscovery_in_progress st) (_last_rediscovery st) (heap st)
    (publish_outcome st) (outbox st) (trace st) (disk st).
Definition set__live_plans (v : pyval) (st : state) : state :=
  mkState (robot_ip st) (serial st) (port st) (use_tls st) (_client st)
    (_connected st) (_command_responses st) (_response_events st)
    (_status st) (_live_map st) v (_live_gps_ref st) (_live_schedules st)
    (_live_global_params st) (_device_msg st) (_preview_plan_path st)
    (_trail st) (_trail_active st) (_max_trail_points st)
    (_control_commands st) (_max_control_commands st) (_disconnect_count st)
    (_rediscovery_in_progress st) (_last_rediscovery st) (heap st)
    (publish_outcome st) (outbox st) (trace st) (disk st).
Definition set__live_gps_ref (v : pyval) (st : state) : state :=
  mkState (robot_ip st) (serial st) (port st) (use_tls st) (_client st)
    (_connected st) (_command_responses st) (_response_events st)
    (_status st) (_live_map st) (_live_plans st) v (_live_schedules st)
    (_live_global_params st) (_device_msg st) (_preview_plan_path st)
    (_trail st) (_trail_active st) (_max_trail_points st)
    (_control_commands st) (_max_control_commands st) (_disconnect_count st)
    (_rediscovery_in_progress st) (_last_rediscovery st) (heap st)
    (publish_outcome st) (outbox st) (trace st) (disk st).
Definition set__live_schedules (v : pyval) (st : state) : state :=
  mkState (robot_ip st) (serial st) (port st) (use_tls st) (_client st)
    (_connected st) (_command_responses st) (_response_events st)
    (_status st) (_live_map st) (_live_plans st) (_live_gps_ref st) v
    (_live_global_params st) (_device_msg st) (_preview_plan_path st)
    (_trail st) (_trail_active st) (_max_trail_points st)
    (_control_commands st) (_max_control_commands st) (_disconnect_count st)
    (_rediscovery_in_progress st) (_last_rediscovery st) (heap st)
    (publish_outcome st) (outbox st) (trace st) (disk st).
Definition set__live_global_params (v : pyval) (st : state) : state :=
  mkState (robot_ip st) (serial st) (port st) (use_tls st) (_client st)
    (_connected st) (_command_responses st) (_response_events st)
    (_status st) (_live_map st) (_live_plans st) (_live_gps_ref st)
    (_live_schedules st) v (_device_msg st) (_preview_plan_path st)
    (_trail st) (_trail_active st) (_max_trail_points st)
    (_control_commands st) (_max_control_commands st) (_disconnect_count st)
    (_rediscovery_in_progress st) (_last_rediscovery st) (heap st)
    (publish_outcome st) (outbox st) (trace st) (disk st).
Definition set__device_msg (v : pyval) (st : state) : state :=
  mkState (robot_ip st) (serial st) (port st) (use_tls st) (_client st)
    (_connected st) (_command_responses st) (_response_events st)
    (_status st) (_live_map st) (_live_plans st) (_live_gps_ref st)
    (_live_schedules st) (_live_global_params st) v (_preview_plan_path st)
    (_trail st) (_trail_active st) (_max_trail_points st)
    (_control_commands st) (_max_control_commands st) (_disconnect_count st)
    (_rediscovery_in_progress st) (_last_rediscovery st) (heap st)
    (publish_outcome st) (outbox st) (trace st) (disk st).
Definition set__preview_plan_path (v : pyval) (st : state) : state :=
  mkState (robot_ip st) (serial st) (port st) (use_tls st) (_client st)
    (_connected st) (_command_responses st) (_response_events st)
    (_status st) (_live_map st) (_live_plans st) (_live_gps_ref st)
    (_live_schedules st) (_live_global_params st) (_device_msg st) v
    (_trail st) (_trail_active st) (_max_trail_points st)
    (_control_commands st) (_max_control_commands st) (_disconnect_count st)
    (_rediscovery_in_progress st) (_last_rediscovery st) (heap st)
    (publish_outcome st) (outbox st) (trace st) (disk st).
Definition set__trail (v : list pyval) (st : state) : state :=
  mkState (robot_ip st) (serial st) (port st) (use_tls st) (_client st)
    (_connected st) (_command_responses st) (_response_events st)
    (_status st) (_live_map st) (_live_plans st) (_live_gps_ref st)
    (_live_schedules st) (_live_global_params st) (_device_msg st)
    (_preview_plan_path st) v (_trail_active st) (_max_trail_points st)
    (_control_commands st) (_max_control_commands st) (_disconnect_count st)
    (_rediscovery_in_progress st) (_last_rediscovery st) (heap st)
    (publish_outcome st) (outbox st) (trace st) (disk st).
Definition set__trail_active (v : bool) (st : state) : state :=
  mkState (robot_ip st) (serial st) (port st) (use_tls st) (_client st)
    (_connected st) (_command_responses st) (_response_events st)
    (_status st) (_live_map st) (_live_plans st) (_live_gps_ref st)
    (_live_schedules st) (_live_global_params st) (_device_msg st)
    (_preview_plan_path st) (_trail st) v (_max_trail_points st)
    (_control_commands st) (_max_control_commands st) (_disconnect_count st)
    (_rediscovery_in_progress st) (_last_rediscovery st) (heap st)
    (publish_outcome st) (outbox st) (trace st) (disk st).
Definition set__control_commands (v : list pyval) (st : state) : state :=
  mkState (robot_ip st) (serial st) (port st) (use_tls st) (_client st)
    (_connected st) (_command_responses st) (_response_events st)
    (_status st) (_live_map st) (_live_plans st) (_live_gps_ref st)
    (_live_schedules st) (_live_global_params st) (_device_msg st)
    (_preview_plan_path st) (_trail st) (_trail_active st)
    (_max_trail_points st) v (_max_control_commands st)
    (_disconnect_count st) (_rediscovery_in_progress st)
    (_last_rediscovery st) (heap st) (publish_outcome st) (outbox st) (trace st)
    (disk st).
Definition set__disconnect_count (v : Z) (st : state) : state :=
  mkState (robot_ip st) (serial st) (port st) (use_tls st) (_client st)
    (_connected st) (_command_responses st) (_response_events st)
    (_status st) (_live_map st) (_live_plans st) (_live_gps_ref st)
    (_live_schedules st) (_live_global_params st) (_device_msg st)
    (_preview_plan_path st) (_trail st) (_trail_active st)
    (_max_trail_points st) (_control_commands st) (_max_control_commands st)
    v (_rediscovery_in_progress st) (_last_rediscovery st) (heap st)
    (publish_outcome st) (outbox st) (trace st) (disk st).
Definition set_heap (v : gmap nat pydict) (st : state) : state :=
  mkState (robot_ip st) (serial st) (port st) (use_tls st) (_client st)
    (_connected st) (_command_responses st) (_response_events st)
    (_status st) (_live_map st) (_live_plans st) (_live_gps_ref st)
    (_live_schedules st) (_live_global_params st) (_device_msg st)
    (_preview_plan_path st) (_trail st) (_trail_active st)
    (_max_trail_points st) (_control_commands st) (_max_control_commands st)
    (_disconnect_count st) (_rediscovery_in_progress st)
    (_last_rediscovery st) v (publish_outcome st) (outbox st) (trace st)
    (disk st).
Definition set_outbox (v : list publication) (st : state) : state :=
  mkState (robot_ip st) (serial st) (port st) (use_tls st) (_client st)
    (_connected st) (_command_responses st) (_response_events st)
    (_status st) (_live_map st) (_live_plans st) (_live_gps_ref st)
    (_live_schedules st) (_live_global_params st) (_device_msg st)
    (_preview_plan_path st) (_trail st) (_trail_active st)
    (_max_trail_points st) (_control_commands st) (_max_control_commands st)
    (_disconnect_count st) (_rediscovery_in_progress st)
    (_last_rediscovery st) (heap st) (publish_outcome st) v (trace st) (disk st).
Definition set_trace (v : list event) (st : state) : state :=
  mkState (robot_ip st) (serial st) (port st) (use_tls st) (_client st)
    (_connected st) (_command_responses st) (_response_events st)
    (_status st) (_live_map st) (_live_plans st) (_live_gps_ref st)
    (_live_schedules st) (_live_global_params st) (_device_msg st)
    (_preview_plan_path st) (_trail st) (_trail_active st)
    (_max_trail_points st) (_control_commands st) (_max_control_commands st)
    (_disconnect_count st) (_rediscovery_in_progress st)
    (_last_rediscovery st) (heap st) (publish_outcome st) (outbox st) v (disk st).
Definition set_disk (v : Discovery.env) (st : state) : state :=
  mkState (robot_ip st) (serial st) (port st) (use_tls st) (_client st)
    (_connected st) (_command_responses st) (_response_events st)
    (_status st) (_live_map st) (_live_plans st) (_live_gps_ref st)
    (_live_schedules st) (_live_global_params st) (_device_msg st)
    (_preview_plan_path st) (_trail st) (_trail_active st)
    (_max_trail_points st) (_control_commands st) (_max_control_commands st)
    (_disconnect_count st) (_rediscovery_in_progress st)
    (_last_rediscovery st) (heap st) (publish_outcome st) (outbox st) (trace st)
    v.

(** [self._status] as [__init__] builds it. *)
Definition initial_status : gmap string pyval :=
  list_to_map [
    ("connected", PBool false); ("last_heartbeat", PNone);
    ("battery", PNone); ("battery_level", PNone);
    ("state", PStr "unknown"); ("state_code", PNone);
    ("running_status", PDict ∅); ("electric_info", PDict ∅);
    ("rtk_status", PDict ∅); ("motor_info", PDict ∅);
    ("position", PDict ∅); ("body_info", PDict ∅); ("hub_info", PDict ∅);
    ("ultrasonic", PDict ∅); ("velocity", PDict ∅);
    ("net_status", PDict ∅); ("vision_info", PDict ∅);
    ("mower_head_info", PDict ∅); ("led_info", PDict ∅);
    ("odom_info", PDict ∅); ("system_info", PDict ∅);
    ("last_data_feedback", PNone)].

(** [YarboMQTTClient(robot_ip, serial, port, use_tls)] in a world whose
    broker answers [publish] with [rcs] and whose network is [net]. *)
Definition __init__ (robot_ip serial : string) (port : Z) (use_tls : bool)
    (rcs : nat → outcome) (net : Discovery.env) : state :=
  {| robot_ip := robot_ip; serial := serial; port := port; use_tls := use_tls;
     _client := None; _connected := false;
     _command_responses := ∅; _response_events := ∅;
     _status := initial_status;
     _live_map := PNone; _live_plans := PNone; _live_gps_ref := PNone;
     _live_schedules := PNone; _live_global_params := PNone;
     _device_msg := PNone; _preview_plan_path := PNone;
     _trail := []; _trail_active := false; _max_trail_points := 2000;
     _control_commands := []; _max_control_commands := 50;
     _disconnect_count := 0; _rediscovery_in_progress := false;
     _last_rediscovery := 0%float;
     heap := ∅; publish_outcome := rcs; outbox := []; trace := []; disk := net |}.

(** *** Methods as state transformers that may raise *)

Definition Py (A : Type) : Type := state → state * pyres A.

Definition ret {A} (a : A) : Py A := λ st, (st, Ok a).
Definition raise {A} (e : exn) : Py A := λ st, (st, Raise e).
Definition bind {A B} (m : Py A) (k : A → Py B) : Py B :=
  λ st, match m st with
        | (st1, Ok a) => k a st1
        | (st1, Raise e) => (st1, Raise e)
        end.

(** A pure computation that may raise. *)
Definition lift {A} (r : pyres A) : Py A := λ st, (st, r).
(** Reading an attribute, and assigning attributes. *)
Definition get {A} (f : state → A) : Py A := λ st, (st, Ok (f st)).
Definition modify (f : state → state) : Py unit := λ st, (f st, Ok tt).
(** [try: m  except Exception: handler] *)
Definition try_except {A} (m : Py A) (handler : exn → Py A) : Py A :=
  λ st, match m st with
        | (st1, Ok a) => (st1, Ok a)
        | (st1, Raise e) => handler e st1
        end.
(** A call into discovery, on the shared disk and network. *)
Definition on_disk {A} (m : Discovery.Io A) : Py A :=
  λ st, let '(d, a) := m (disk st) in (set_disk d st, Ok a).

Declare Scope py_scope.
Delimit Scope py_scope with py.
Bind Scope py_scope with Py.
Notation "x ← y ; z" := (bind y (λ x, z))
  (at level 20, y at level 100, z at level 200, only parsing) : py_scope.
Notation "y ;; z" := (bind y (λ _, z))
  (at level 100, z at level 200, only parsing, right associativity) : py_scope.
Local Open Scope py_scope.

(** [self._status[k] = v] *)
Definition status_set (k : string) (v : pyval) : Py unit :=
  modify (λ st, set__status (<[k := v]> (_status st)) st).

(** *** Decoding *)

(** [payload[:2] == b"\x1f\x8b"] *)
Definition gzip_magic (payload : bytes) : bool :=
  match take 2 payload with
  | [b0; b1] => Byte.eqb b0 x1f && Byte.eqb b1 x8b
  | _ => false
  end.

(** [try: r  except Exception: handler] for a computation without effect *)
Definition catch {A} (r : pyres A) (handler : exn → pyres A) : pyres A :=
  match r with
  | Ok a => Ok a
  | Raise e => handler e
  end.

(** [_decompress(payload)] *)
Definition _decompress (L : pylib) (payload : bytes) : pyres bytes :=
  catch
    (if gzip_magic payload then gzip_read L payload
     else zlib_decompress L payload)
    (λ _, Ok payload).

(** *** Command replies *)

(** [req_id and req_id in self._response_events]: the key of the waiting
    caller, if there is one.  The keys of the table are strings, so only a
    string can be found in it; hashing a list or a dict raises. *)
Definition waiting_key (req_id : pyval) (events : gmap string bool)
  : pyres (option string) :=
  if truthy req_id then
    match req_id with
    | PStr k => Ok (if decide (is_Some (events !! k)) then Some k else None)
    | PList _ | PDict _ => Raise TypeError
    | _ => Ok None
    end
  else Ok None.

(** Lines 445 to 447 and 451 to 453: signal the waiting caller. *)
Definition signal_waiting_caller (req_id data : pyval) : Py unit :=
  events ← get _response_events;
  key ← lift (waiting_key req_id events);
  match key with
  | Some k =>
      modify (λ st,
        set__command_responses (<[k := data]> (_command_responses st)) st);;
      (* self._response_events[req_id].set() *)
      modify (λ st,
        set__response_events (<[k := true]> (_response_events st)) st)
  | None => ret tt
  end.

(** [_handle_command_reply(data)] *)
Definition _handle_command_reply (data : pyval) : Py unit :=
  req_id ← lift (py_get data "req_id" PNone);
  signal_waiting_caller req_id data.

(** *** Telemetry *)

(** [_decode_state(code)] *)
Definition states : list (Z * string) :=
  [(0, "idle"); (1, "working"); (2, "paused"); (3, "charging");
   (4, "error"); (5, "docking"); (6, "returning")].

Definition _decode_state (L : pylib) (code : pyval) : pyres string :=
  match int_table_get states code with
  | Ok (Some name) => Ok name
  | Ok None => Ok ("unknown_" +:+ format_s L code)
  | Raise e => Raise e
  end.

(** [v < 0] *)
Definition py_lt0 (v : pyval) : pyres bool :=
  match v with
  | PInt z => Ok (z <? 0)
  | PBool _ => Ok false
  | PFloat f => Ok (PrimFloat.ltb f 0%float)
  | _ => Raise TypeError
  end.

(** [len(v)] *)
Definition py_len (v : pyval) : pyres Z :=
  match v with
  | PStr s => Ok (Z.of_nat (String.length s))
  | PList l => Ok (Z.of_nat (length l))
  | PDict d => Ok (Z.of_nat (size d))
  | _ => Raise TypeError
  end.

(** [k in v] for a string literal [k] *)
Definition py_contains (k : string) (v : pyval) : pyres bool :=
  match v with
  | PDict d => Ok (bool_decide (is_Some (d !! k)))
  | PList l => Ok (existsb (λ x, eq_str x k) l)
  | PStr s => Ok (contains k s)
  | _ => Raise TypeError
  end.

(** [v[k]] for a string literal [k] *)
Definition py_index (v : pyval) (k : string) : pyres pyval :=
  match v with
  | PDict d => match d !! k with Some x => Ok x | None => Raise KeyError end
  | _ => Raise TypeError
  end.

(** The breadcrumb trail, lines 417 to 436 of [_handle_data_feedback]:
    record odom while a plan is active. *)
Definition record_trail (t : instant) (payload : pyval) : Py unit :=
  match payload with
  | PDict p =>
      let state_msg := default (PDict ∅) (p !! "StateMSG") in
      flag ← lift (py_get state_msg "on_going_planning" (PInt 0));
      let is_planning := truthy flag in
      active ← get _trail_active;
      (if is_planning && negb active then
         modify (set__trail_active true);;
         modify (set__trail [])
       else if negb is_planning && active then
         modify (set__trail_active false)
       else ret tt);;
      active ← get _trail_active;
      if active : bool then
        let odom := default (PDict ∅) (p !! "CombinedOdom") in
        x ← lift (py_get odom "x" PNone);
        y ← (if negb (is_none x) then lift (py_get odom "y" PNone)
             else ret PNone);
        if negb (is_none x) && negb (is_none y) then
          ts ← lift (py_get odom "timestamp" (PFloat (clock t)));
          let sample := PDict (<["x" := x]> (<["y" := y]> {["ts" := ts]})) in
          modify (λ st, set__trail (_trail st ++ [sample]) st);;
          trail ← get _trail;
          bound ← get _max_trail_points;
          if bound <? Z.of_nat (length trail) then
            modify (set__trail (slice_from (- bound) trail))
          else ret tt
        else ret tt
      else ret tt
  | _ => ret tt
  end.

(** [_handle_data_feedback(data)] *)
Definition _handle_data_feedback (L : pylib) (t : instant) (data : pyval)
  : Py unit :=
  topic ← lift (py_get data "topic" (PStr ""));
  payload ← lift (py_get data "data" data);
  req_id ← lift (py_get data "req_id" PNone);
  (* with self._lock: *)
  status_set "last_data_feedback" (PStr (now_iso t));;
  (if eq_str topic "batteryInfo" then
     status_set "battery" payload;;
     if isinstance_dict payload then
       fallback ← lift (py_get payload "battery_level" PNone);
       level ← lift (py_get payload "level" fallback);
       status_set "battery_level" level
     else ret tt
   else if eq_str topic "runningStatus" then
     status_set "running_status" payload;;
     fallback ← lift (py_get payload "robot_state" PNone);
     sc ← lift (py_get payload "state" fallback);
     if negb (is_none sc) then
       status_set "state_code" sc;;
       name ← lift (_decode_state L sc);
       status_set "state" (PStr name)
     else ret tt
   else if eq_str topic "electricInfo" then status_set "electric_info" payload
   else if eq_str topic "rtkMSG" then status_set "rtk_status" payload
   else if eq_str topic "motorInfo" then status_set "motor_info" payload
   else if eq_str topic "stateInfo" then
     match payload with
     | PDict p => modify (λ st, set__status (p ∪ _status st) st)
     | _ => ret tt
     end
   else if eq_str topic "bodyInfoMSG" then status_set "body_info" payload
   else if eq_str topic "hubInfoMsg" then status_set "hub_info" payload
   else if eq_str topic "ultrasonicMsg" then status_set "ultrasonic" payload
   else if eq_str topic "velocityShow" then status_set "velocity" payload
   else if eq_str topic "netStatusInfo" then status_set "net_status" payload
   else if eq_str topic "visionInfo" then status_set "vision_info" payload
   else if eq_str topic "mowerHeadInfo" then status_set "mower_head_info" payload
   else if eq_str topic "ledInfoMsg" then status_set "led_info" payload
   else if eq_str topic "odomInfo" then status_set "odom_info" payload
   else if eq_str topic "SystemInfoFeedback" then status_set "system_info" payload
   else if eq_str topic "get_connect_wifi_name" then
     wifi_ip ← (if isinstance_dict payload then lift (py_get payload "ip" (PStr ""))
                else ret (PStr ""));
     status_set "wifi_info" payload;;
     if truthy wifi_ip then
       status_set "robot_wifi_ip" wifi_ip;;
       (* both arms of the mismatch test cache the reported address *)
       on_disk (Discovery.save_cached_ip wifi_ip)
     else ret tt
   (* command responses *)
   else if eq_str topic "get_map" then
     let payload :=
       match payload with
       | PStr s => default payload (json_loads L s)
       | _ => payload
       end in
     modify (set__live_map payload)
   else if eq_str topic "read_all_plan" then modify (set__live_plans payload)
   else if eq_str topic "read_gps_ref" then modify (set__live_gps_ref payload)
   else if eq_str topic "read_schedules" then modify (set__live_schedules payload)
   else if eq_str topic "read_global_params" then
     modify (set__live_global_params payload)
   else if eq_str topic "get_device_msg" then
     modify (set__device_msg payload);;
     record_trail t payload
   else if eq_str topic "preview_plan_path" then
     modify (set__preview_plan_path payload);;
     (* the arguments of the log call *)
     st_code ← lift (py_get payload "state" (PInt 0));
     failed ← lift (py_lt0 st_code);
     if failed : bool then ret tt
     else
       path ← lift (py_get payload "path" (PList []));
       pts ← lift (py_get payload "data" path);
       lift (py_len pts);; ret tt
   else
     match topic with
     | PStr k => status_set k payload
     | PList _ | PDict _ => raise TypeError
     | _ => ret tt   (* an entry under a key that is not a string *)
     end);;
  (* Signal waiting callers *)
  signal_waiting_caller req_id data.

(** The heartbeat arm of [_on_message], lines 286 to 297. *)
Definition state_map : list (Z * string) :=
  [(0, "standby"); (1, "idle"); (2, "working"); (3, "charging");
   (4, "docking"); (5, "error"); (6, "returning"); (7, "paused")].

Definition heart_beat (t : instant) (data : pyval) : Py unit :=
  status_set "connected" (PBool true);;
  status_set "last_heartbeat" (PStr (now_iso t));;
  present ← lift (py_contains "working_state" data);
  if present : bool then
    ws_code ← lift (py_index data "working_state");
    name ← lift (int_table_get state_map ws_code);
    status_set "state" (PStr (default "unknown" name));;
    status_set "working_state_code" ws_code
  else ret tt.

(** The [DeviceMSG] arm of [_on_message], lines 303 to 316.  One item of
    the loop over [data.items()].  The dicts of the telemetry are values
    here: the update is of [_device_msg] alone, and a dict object that a
    stored response shares with it is not followed. *)
Definition merge_item (key : string) (value : pyval) : Py unit :=
  current ← get _device_msg;
  match current with
  | PDict dm =>
      match value with
      | PDict v =>
          let dm := if decide (is_Some (dm !! key)) then dm
                    else <[key := PDict ∅]> dm in
          modify (set__device_msg (PDict dm));;
          match dm !! key with
          | Some (PDict old) =>
              modify (set__device_msg (PDict (<[key := PDict (v ∪ old)]> dm)))
          | _ => raise AttributeError
          end
      | _ => modify (set__device_msg (PDict (<[key := value]> dm)))
      end
  | _ => raise TypeError
  end.

Fixpoint merge_items (items : list (string * pyval)) : Py unit :=
  match items with
  | [] => ret tt
  | (key, value) :: rest => merge_item key value;; merge_items rest
  end.

(** The items are visited in the order of [map_to_list]; Python visits
    them in the order of the message, which shows only in the entries
    already merged when an item raises. *)
Definition merge_device_msg (data : pyval) : Py unit :=
  current ← get _device_msg;
  (if truthy current then ret tt else modify (set__device_msg (PDict ∅)));;
  match data with
  | PDict d => merge_items (map_to_list d)
  | _ => raise AttributeError
  end.

(** [_track_control_command(topic, data)] *)
Definition control_topics : list string :=
  ["cmd_vel"; "cmd_roller"; "set_working_state"; "set_plan_roller";
   "start_plan"; "stop"; "pause"; "resume"; "dock"; "preview_plan_path"].

Definition _track_control_command (t : instant) (topic : string)
    (data : pyval) : Py unit :=
  let is_control := existsb (λ ct, contains ct topic) control_topics in
  if negb is_control then ret tt
  else
    let cmd_name := last_segment "" topic in
    let entry := PDict (list_to_map [
      ("timestamp", PStr (now_iso t)); ("command", PStr cmd_name);
      ("topic", PStr topic); ("payload", data)]) in
    modify (λ st, set__control_commands (_control_commands st ++ [entry]) st);;
    commands ← get _control_commands;
    bound ← get _max_control_commands;
    if bound <? Z.of_nat (length commands) then
      modify (set__control_commands (slice_from (- bound) commands))
    else ret tt.

(** A message as paho hands it to [_on_message], with the clock readings
    taken while it is processed. *)
Record inbound : Type := mkInbound {
  msg_topic : string;
  msg_payload : bytes;
  received : instant;
}.

(** The body of [_on_message] once the payload is decoded, lines 278 to
    322: track, log, and route by topic. *)
Definition route (L : pylib) (tp : string) (t : instant) (data : pyval)
  : Py unit :=
  if contains "heart_beat" tp then heart_beat t data
  else if contains "data_feedback" tp then _handle_data_feedback L t data
  else if contains "DeviceMSG" tp then merge_device_msg data
  else if contains "/reply" tp || contains "/ack" tp then
    _handle_command_reply data
  else ret tt.

Definition dispatch (L : pylib) (tp : string) (t : instant) (data : pyval)
  : Py unit :=
  _track_control_command t tp data;;
  route L tp t data.

(** [_on_message(client, userdata, msg)]: the outer [except Exception]
    logs whatever the handlers raise, so the callback itself returns. *)
Definition _on_message (L : pylib) (msg : inbound) : Py unit :=
  try_except
    (raw ← lift (_decompress L (msg_payload msg));
     match json_loads_bytes L raw with
     | None => ret tt
     | Some data => dispatch L (msg_topic msg) (received msg) data
     end)
    (λ _, ret tt).

(** The network thread working through the messages that arrive. *)
Definition deliver (L : pylib) (msgs : list inbound) (st : state) : state :=
  foldl (λ st msg, (_on_message L msg st).1) st msgs.

(** *** Commands *)

(** [{}]: a new dict object. *)
Definition new_dict : Py nat :=
  λ st, let p := fresh (dom (heap st)) in
        (set_heap (<[p := ∅]> (heap st)) st, Ok p).

(** The result code the n-th attempt to publish reports; 0 also stands for
    an attempt that reports none because it raises. *)
Definition publish_rc (st : state) (n : nat) : Z :=
  match publish_outcome st n with
  | Reports rc => rc
  | Fails _ => 0
  end.

(** [raw = json.dumps(payload, ensure_ascii=False).encode("utf-8")] and
    [self._client.publish(topic, raw, qos=0)], lines 619 and 620: the
    result code, unless one of the two raises. *)
Definition publish (topic : string) (payload : nat) : Py Z :=
  λ st, let result := publish_outcome st (length (outbox st)) in
        let body := default ∅ (heap st !! payload) in
        (set_outbox (outbox st ++ [mkPublication topic body result]) st,
         match result with
         | Reports rc => Ok rc
         | Fails f => Raise (fault_exn f)
         end).

(** [self._response_events.pop(req_id, None)] *)
Definition forget_event (req_id : string) : Py unit :=
  modify (λ st, set__response_events (delete req_id (_response_events st)) st).

(** [send_command(command, payload, wait, timeout)].  [payload] is the
    reference the caller passes ([None] for the default); [uuid12] is the
    value of [uuid.uuid4().hex[:12]], read when [wait] holds; [inflight]
    are the messages the network thread handles while the caller is blocked
    in [Event.wait(timeout)], which returns when the event is set or when
    the timeout has elapsed, and which raises at once, without blocking,
    when the event is not set and the timeout is one the lock refuses.
    What [publish] or the wait raises leaves the registered event where
    it is. *)
Definition send_command (L : pylib) (command : string) (payload : option nat)
    (wait : bool) (timeout : float) (uuid12 : string)
    (inflight : list inbound) : Py pyval :=
  client ← get _client;
  connected ← get _connected;
  if negb (bool_decide (is_Some client)) || negb connected then
    raise (ConnectionError "Not connected to robot MQTT")
  else
    payload ← (match payload with
               | Some p => ret p
               | None => new_dict
               end);
    sn ← get serial;
    let topic := "snowbot/" +:+ sn +:+ "/app/" +:+ command in
    req_id ← (if wait then
                modify (λ st,
                  set_heap (alter (insert "req_id" (PStr uuid12)) payload
                                  (heap st)) st);;
                modify (λ st,
                  set__response_events
                    (<[uuid12 := false]> (_response_events st)) st);;
                ret (PStr uuid12)
              else ret PNone);
    rc ← publish topic payload;
    if negb (rc =? 0) then
      (if truthy req_id then forget_event uuid12 else ret tt);;
      raise (RuntimeError ("MQTT publish failed: rc=" +:+ pretty rc))
    else
      if wait && truthy req_id then
        events ← get _response_events;
        match events !! uuid12 with
        | None => raise KeyError
        | Some flag =>
            (* self._response_events[req_id].wait(timeout=timeout) *)
            (if negb flag && wait_overflows L timeout then raise OverflowError
             else modify (deliver L inflight));;
            forget_event uuid12;;
            response ← get (λ st, default PNone (_command_responses st !! uuid12));
            modify (λ st,
              set__command_responses (delete uuid12 (_command_responses st)) st);;
            ret response
        end
      else ret PNone.

(** [clear_trail()] *)
Definition clear_trail : Py unit :=
  modify (set__trail []).

(** *** Connection callbacks *)

(** [_try_rediscovery()]: the thread it starts runs [discover_robot] on
    its own; the model records the request and the start. *)
Definition _try_rediscovery (t : instant) : Py unit :=
  modify (λ st, set_trace (trace st ++ [RediscoveryRequested]) st);;
  busy ← get _rediscovery_in_progress;
  last ← get _last_rediscovery;
  if busy : bool then ret tt
  else if PrimFloat.ltb (PrimFloat.sub (clock t) last) 60%float then ret tt
  else modify (λ st, set_trace (trace st ++ [ThreadStarted "mqtt-rediscovery"]) st).

(** [_on_disconnect(client, userdata, flags, reason_code)] *)
Definition _on_disconnect (t : instant) (reason_code : Z) : Py unit :=
  modify (λ st, set__disconnect_count (_disconnect_count st + 1) st);;
  modify (set__connected false);;
  status_set "connected" (PBool false);;
  count ← get _disconnect_count;
  if count <=? 1 then ret tt
  else if count =? 3 then _try_rediscovery t
  else if count `mod` 10 =? 0 then _try_rediscovery t
  else ret tt.

(** [_request_initial_state()] *)
Fixpoint request_each (L : pylib) (cmds : list string) : Py unit :=
  match cmds with
  | [] => ret tt
  | cmd :: rest =>
      try_except
        (payload ← new_dict;
         send_command L cmd (Some payload) false 5%float "" [];; ret tt)
        (λ _, ret tt);;
      request_each L rest
  end.

Definition _request_initial_state (L : pylib) : Py unit :=
  request_each L ["get_device_msg"; "get_map"; "read_all_plan";
                  "read_gps_ref"; "read_global_params"; "read_schedules"].

(** [_confirm_robot_ip()] *)
Definition _confirm_robot_ip (L : pylib) : Py unit :=
  try_except
    (payload ← new_dict;
     send_command L "get_connect_wifi_name" (Some payload) false 5%float "" [];;
     ret tt)
    (λ _, ret tt).

(** [_start_refresh_thread()] *)
Definition _start_refresh_thread : Py unit :=
  modify (λ st, set_trace (trace st ++ [ThreadStarted "refresh_loop"]) st).

(** [_on_connect(client, userdata, flags, reason_code)] *)
Definition _on_connect (L : pylib) (reason_code : Z) : Py unit :=
  if reason_code =? 0 then
    modify (set__connected true);;
    modify (set__disconnect_count 0);;   (* reset on successful connect *)
    status_set "connected" (PBool true);;
    sn ← get serial;
    modify (λ st,
      set_trace (trace st ++ [Subscribed ("snowbot/" +:+ sn +:+ "/#")]) st);;
    _request_initial_state L;;
    _confirm_robot_ip L;;
    _start_refresh_thread
  else
    modify (set__connected false).

(** *** Vocabulary of the properties *)

(** A method leaves the part [f] of the state as it finds it, whether it
    returns or raises. *)
Definition preserves {A B} (f : state → B) (m : Py A) : Prop :=
  ∀ st, f (m st).1 = f st.


(** A value of [uuid.uuid4().hex[:12]]: twelve lower-case hex digits. *)
Definition is_hex_digit (c : ascii) : bool :=
  let n := Z.of_nat (nat_of_ascii c) in
  ((48 <=? n) && (n <=? 57)) || ((97 <=? n) && (n <=? 102)).

Definition is_req_id (s : string) : bool :=
  bool_decide (String.length s = 12%nat)
  && forallb is_hex_digit (String.list_ascii_of_string s).

(** The session is up: a paho client exists and the connected flag is set,
    which is what the guard of [send_command] tests. *)
Definition session_up (st : state) : bool :=
  bool_decide (is_Some (_client st)) && _connected st.

(** [n] disconnect events in a row, at the given instants. *)
Definition disconnects (events : list (instant * Z)) (st : state) : state :=
  foldl (λ st ev, (_on_disconnect ev.1 ev.2 st).1) st events.

(** How often [_try_rediscovery] has been called. *)
Definition is_request (ev : event) : bool :=
  match ev with RediscoveryRequested => true | _ => false end.

Definition rediscovery_requests (st : state) : nat :=
  length (List.filter is_request (trace st)).

(** The data-feedback frames that arrive, handled one after the other; an
    exception a frame raises is logged by [_on_message]. *)
Definition feed (L : pylib) (frames : list (instant * pyval)) (st : state)
  : state :=
  foldl (λ st fr, (_handle_data_feedback L fr.1 fr.2 st).1) st frames.

(** The job-active flag a device-message frame carries, when the frame gets
    as far as reading it. *)
Definition job_flag (data : pyval) : option bool :=
  match data with
  | PDict d =>
      if eq_str (default (PStr "") (d !! "topic")) "get_device_msg" then
        match default data (d !! "data") with
        | PDict p =>
            match default (PDict ∅) (p !! "StateMSG") with
            | PDict sm =>
                Some (truthy (default (PInt 0) (sm !! "on_going_planning")))
            | _ => None
            end
        | _ => None
        end
      else None
  | _ => None
  end.

(** The position sample of a device-message frame that reports a job in
    progress and an odometry reading with both coordinates. *)
Definition position_sample (t : instant) (data : pyval) : option pyval :=
  match job_flag data, data with
  | Some true, PDict d =>
      match default data (d !! "data") with
      | PDict p =>
          match default (PDict ∅) (p !! "CombinedOdom") with
          | PDict od =>
              match od !! "x", od !! "y" with
              | Some x, Some y =>
                  if is_none x || is_none y then None
                  else
                    let ts := default (PFloat (clock t)) (od !! "timestamp") in
                    Some (PDict (<["x" := x]> (<["y" := y]> {["ts" := ts]})))
              | _, _ => None
              end
          | _ => None
          end
      | _ => None
      end
  | _, _ => None
  end.

(** The JSON value a message decodes to, and the data-feedback frame it
    is routed as. *)
Definition decoded (L : pylib) (msg : inbound) : option pyval :=
  match _decompress L (msg_payload msg) with
  | Ok raw => json_loads_bytes L raw
  | Raise _ => None
  end.

Definition feedback_frame (L : pylib) (msg : inbound) : option pyval :=
  if negb (contains "heart_beat" (msg_topic msg))
     && contains "data_feedback" (msg_topic msg)
  then decoded L msg else None.

(** The [req_id] field a decoded message carries. *)
Definition carried_req_id (data : pyval) : pyval :=
  match py_get data "req_id" PNone with
  | Ok v => v
  | Raise _ => PNone
  end.


(** *** Example data *)

(** A library for the examples: nothing decompresses, and the frames are
    the one-byte payloads of a table. *)
Definition example_frames : list (byte * pyval) :=
  [ (x41, PDict {["working_state" := PInt 2]});
    (x42, PDict (<["topic" := PStr "runningStatus"]>
                 {["data" := PDict {["state" := PInt 2]}]}));
    (x43, PDict (<["req_id" := PStr "0123456789ab"]>
                 {["topic" := PStr "get_map"]})) ].

Definition example_lib : pylib :=
  {| gzip_read := λ _, Raise OSError;
     zlib_decompress := λ _, Raise ValueError;
     json_loads_bytes := λ raw,
       match raw with
       | [b] => snd <$> List.find (λ fr, Byte.eqb (fst fr) b) example_frames
       | _ => None
       end;
     json_loads := λ _, None;
     py_repr := λ _, "";
     wait_overflows := λ timeout, PrimFloat.ltb 0x1.12e0be826d694p+33%float timeout |}.

Definition noon : instant := mkInstant "2025-01-01T12:00:00+00:00" 1735732800%float.

(** A client that [start()] has given a paho client and that the broker
    has accepted, with every [publish] succeeding. *)
Definition example_client : state :=
  let st := __init__ "192.168.68.102" "SN001" 8883 true (λ _, Reports 0)
                     Discovery.example_env in
  mkState (robot_ip st) (serial st) (port st) (use_tls st)
    (Some (PahoClient "yarbo-bridge-0a1b2c3d")) true
    (_command_responses st) (_response_events st) (_status st) (_live_map st)
    (_live_plans st) (_live_gps_ref st) (_live_schedules st)
    (_live_global_params st) (_device_msg st) (_preview_plan_path st)
    (_trail st) (_trail_active st) (_max_trail_points st)
    (_control_commands st) (_max_control_commands st) (_disconnect_count st)
    (_rediscovery_in_progress st) (_last_rediscovery st)
    (heap st) (publish_outcome st) (outbox st) (trace st) (disk st).

Definition example_beat : inbound :=
  mkInbound "snowbot/SN001/device/heart_beat" [x41] noon.

Definition example_feedback : inbound :=
  mkInbound "snowbot/SN001/device/data_feedback" [x42] noon.

Definition example_reply : inbound :=
  mkInbound "snowbot/SN001/app/get_map/reply" [x43] noon.

(** The example client with a dict [{"id": 1}] that a caller holds. *)
Definition example_caller : state :=
  set_heap {[0%nat := {["id" := PInt 1]}]} example_client.

(** The last [n] elements of a list, in order. *)
Definition keep_last {A} (n : nat) (l : list A) : list A :=
  drop (length l - n) l.
Arguments keep_last : simpl never.

(** The breadcrumb trail and its activity flag. *)
Definition trail_part (st : state) : list pyval * bool :=
  (_trail st, _trail_active st).

(** The operations on a client that the model covers. *)
Inductive operation : Type :=
  | Inbound (msg : inbound)
  | Connect (reason_code : Z)
  | Disconnect (t : instant) (reason_code : Z)
  | Command (command : string) (payload : option nat) (wait : bool)
            (timeout : float) (uuid12 : string) (inflight : list inbound)
  | ClearTrail.

Definition perform (L : pylib) (st : state) (op : operation) : state :=
  match op with
  | Inbound msg => (_on_message L msg st).1
  | Connect reason_code => (_on_connect L reason_code st).1
  | Disconnect t reason_code => (_on_disconnect t reason_code st).1
  | Command command payload wait timeout uuid12 inflight =>
      (send_command L command payload wait timeout uuid12 inflight st).1
  | ClearTrail => (clear_trail st).1
  end.

(** A message that is routed as a data-feedback frame and reports a job
    in progress. *)
Definition job_start (L : pylib) (msg : inbound) : bool :=
  match feedback_frame L msg with
  | Some data => bool_decide (job_flag data = Some true)
  | None => false
  end.

(** An operation during which such a message is handled. *)
Definition restarts (L : pylib) (op : operation) : bool :=
  match op with
  | Inbound msg => job_start L msg
  | Command _ _ _ _ _ inflight => existsb (job_start L) inflight
  | _ => false
  end.

Definition is_clear (op : operation) : bool :=
  match op with ClearTrail => true | _ => false end.

(** Device-message frames for the examples. *)
Definition device_frame (planning : Z) (odom : option (float * float))
  : pyval :=
  let state_msg := PDict {["on_going_planning" := PInt planning]} in
  let payload :=
    match odom with
    | Some (x, y) =>
        <["StateMSG" := state_msg]>
          {["CombinedOdom" := PDict (<["x" := PFloat x]> {["y" := PFloat y]})]}
    | None => {["StateMSG" := state_msg]}
    end in
  PDict (<["topic" := PStr "get_device_msg"]> {["data" := PDict payload]}).

Definition example_point (x y : float) : pyval :=
  PDict (<["x" := PFloat x]> (<["y" := PFloat y]>
    {["ts" := PFloat (clock noon)]})).

(** The example client in the middle of a job, five points recorded. *)
Definition example_running : state :=
  set__trail_active true
    (set__trail [example_point 0 0; example_point 1 0; example_point 2 0;
                 example_point 3 0; example_point 4 0] example_client).

(** ** Further vocabulary *)

(** What a run of discovery cannot change: the network and the state of
    the disk apart from the cache file. *)
Definition surroundings (e : Discovery.env)
  : (string → Z → bool) * (string → Z → option exn) * bool * bool
    * (string → bool) * option string * (string → option (list string)) :=
  (Discovery.reachable e, Discovery.probe_error e, Discovery.disk_readable e,
   Discovery.disk_writable e, Discovery.truncating e,
   Discovery.local_subnet e, Discovery.network_hosts e).

Definition is_probe (c : Discovery.call) : bool :=
  match c with Discovery.CProbe _ _ => true | _ => false end.

Definition is_save (c : Discovery.call) : bool :=
  match c with Discovery.CSaveCache _ => true | _ => false end.

(** A run from [e] to [e'] that only probed hosts other than [avoid]: the
    cache file and the surroundings are as before and the calls logged
    are probes of other hosts. *)
Definition probed_only (avoid : option string) (e e' : Discovery.env) : Prop :=
  surroundings e' = surroundings e ∧
  Discovery.cache_file e' = Discovery.cache_file e ∧
  ∃ cs, Discovery.calls e' = Discovery.calls e ++ cs ∧
        Forall (λ c, ∃ ip port, c = Discovery.CProbe ip port ∧ Some ip ≠ avoid) cs.

(** The hosts in [results] answered on [port] and are not the host to
    avoid. *)
Definition answered (e : Discovery.env) (port : Z) (avoid : option string)
    (results : list string) : Prop :=
  Forall (λ ip, Discovery.reachable e ip port = true ∧ Some ip ≠ avoid) results.

(** A stretch of a discovery run from [e] to [e'] that wrote nothing: the
    surroundings and the cache file are as before and no call logged is a
    save. *)
Definition quiet (e e' : Discovery.env) : Prop :=
  surroundings e' = surroundings e ∧
  Discovery.cache_file e' = Discovery.cache_file e ∧
  ∃ cs, Discovery.calls e' = Discovery.calls e ++ cs ∧
        Forall (λ c, is_save c = false) cs.

(** What every run of discovery from [e] guarantees about its end state and
    its result. *)
Definition run_summary (e : Discovery.env) (port : Z)
    (run : Discovery.env * pyres (option string)) : Prop :=
  surroundings run.1 = surroundings e ∧
  (∀ ip, run.2 = Ok (Some ip) →
     ip ≠ "" ∧ Discovery.reachable e ip port = true) ∧
  (∀ ex, run.2 = Raise ex →
     ∃ ip, Discovery.probe_error e ip port = Some ex ∧
           Discovery.reachable e ip port = false) ∧
  (Discovery.cache_file run.1 = Discovery.cache_file e ∨
   (∃ ip, run.2 = Ok (Some ip) ∧
      if Discovery.disk_writable e
      then Discovery.cache_file run.1 = Some ip
      else Discovery.truncating e ip = true ∧
           Discovery.cache_file run.1 = Some "")) ∧
  ∃ cs, Discovery.calls run.1 = Discovery.calls e ++ cs ∧
        ∀ v, Discovery.CSaveCache v ∈ cs →
             ∃ ip, v = PStr ip ∧ run.2 = Ok (Some ip).


(** The hosts of the subnet [s] that answer on [port]. *)
Definition brokers (e : Discovery.env) (s : string) (port : Z) : list string :=
  match Discovery.network_hosts e s with
  | Some hosts => List.filter (λ ip, Discovery.reachable e ip port) hosts
  | None => []
  end.

(** Some host of [pool] other than [avoid] answers on [port]. *)
Definition candidate (e : Discovery.env) (port : Z) (avoid : option string)
    (pool : list string) : Prop :=
  ∃ ip, ip ∈ pool ∧ Discovery.reachable e ip port = true ∧ Some ip ≠ avoid.

(** ** Vocabulary of the further client properties *)

(** A method keeps an invariant [P] of the client, whether it returns or
    raises. *)
Definition keeps {A} (P : state → Prop) (m : Py A) : Prop :=
  ∀ st, P st → P (m st).1.

(** The two bounded stores are within their bounds, and the bounds are the
    ones [__init__] sets. *)
Definition bounded (st : state) : Prop :=
  _max_trail_points st = 2000 ∧ _max_control_commands st = 50 ∧
  (length (_trail st) ≤ 2000)%nat ∧ (length (_control_commands st) ≤ 50)%nat.

(** A topic that [_track_control_command] records. *)
Definition is_control (topic : string) : bool :=
  existsb (λ ct, contains ct topic) control_topics.

(** The history entry for a message on [topic] decoded to [data] at [t]. *)
Definition history_entry (t : instant) (topic : string) (data : pyval) : pyval :=
  PDict (list_to_map [
    ("timestamp", PStr (now_iso t)); ("command", PStr (last_segment "" topic));
    ("topic", PStr topic); ("payload", data)]).

(** What no message from the broker can change: the identity of the
    client, its session, the disconnect bookkeeping, the bounds, the
    payload dicts callers hold, what has been published, and the
    subscriptions and threads. *)
Definition beyond_messages (st : state) :=
  (robot_ip st, serial st, port st, use_tls st, _client st, _connected st,
   _disconnect_count st, _rediscovery_in_progress st, _last_rediscovery st,
   _max_trail_points st, _max_control_commands st,
   heap st, outbox st, trace st).





(** The topic a command is published on. *)
Definition command_topic (st : state) (command : string) : string :=
  "snowbot/" +:+ serial st +:+ "/app/" +:+ command.


(** The two correlation tables. *)
Definition tables (st : state) : gmap string bool * gmap string pyval :=
  (_response_events st, _command_responses st).

(** * Properties *)

(** ** Address discovery *)

Section discovery_facts.
Import Discovery.
Local Open Scope io_scope.

Lemma calls_since_app (e : env) (cs : list call) :
  drop (length (calls e)) (calls e ++ cs) = cs.
Proof. by rewrite drop_app_length. Qed.

End discovery_facts.

(** C7.  Discovery with a configured address that answers the probe:
    the address is handed to [save_cached_ip] (and is the text of the cache
    file afterwards whenever the disk accepts the write) and returned; the
    only calls made are that probe and that save, so the subnet scan is not
    invoked and the cache is not read: those are reached only when the
    configured address is absent or its probe fails. *)
Theorem discover_configured_first (e : Discovery.env)
    (configured_ip : string) (port : Z) (subnet : option string) :
  configured_ip ≠ "" →
  Discovery.reachable e configured_ip port = true →
  let run := Discovery.discover_robot configured_ip port subnet e in
  run.2 = Ok (Some configured_ip) ∧
  Discovery.calls_since e run.1 =
    [Discovery.CProbe configured_ip port;
     Discovery.CSaveCache (PStr configured_ip)] ∧
  (Discovery.disk_writable e = true →
     Discovery.cache_file run.1 = Some configured_ip) ∧
  (∀ c, c ∈ Discovery.calls_since e run.1 →
     Discovery.is_scan c = false ∧ Discovery.is_cache_read c = false).
Proof.
  intros Hne Hup.
  unfold Discovery.discover_robot.
  destruct (String.eqb_spec configured_ip "") as [->|_]; [done|].
  unfold Discovery.io_bind_ok, Discovery.io_bind, Discovery._probe_port,
    Discovery.save_cached_ip, Discovery.record, Discovery.ask,
    Discovery.io_ret, Discovery.write_cache.
  cbn. rewrite Hup. cbn.
  assert (Hcalls : ∀ e' : Discovery.env,
    Discovery.calls e' = (Discovery.calls e ++ [Discovery.CProbe configured_ip port])
                           ++ [Discovery.CSaveCache (PStr configured_ip)] →
    Discovery.calls_since e e' =
      [Discovery.CProbe configured_ip port;
       Discovery.CSaveCache (PStr configured_ip)]).
  { intros e' He'. unfold Discovery.calls_since. rewrite He'.
    rewrite <- app_assoc. apply calls_since_app. }
  destruct (Discovery.disk_writable e) eqn:Hw;
    [|destruct (Discovery.truncating e configured_ip)]; cbn;
    (split; [done|]); rewrite Hcalls by done;
    (split; [done|]); (split; [done|]);
    intros c Hc; apply list_elem_of_In in Hc;
    destruct Hc as [<-|[<-|[]]]; done.
Qed.

(** A data centre at 192.168.68.102 that answers on port 8883. *)
Lemma discover_configured_first_witness :
  let e := Discovery.example_env in
  let run := Discovery.discover_robot "192.168.68.102" 8883 None e in
  run.2 = Ok (Some "192.168.68.102") ∧
  Discovery.calls_since e run.1 =
    [Discovery.CProbe "192.168.68.102" 8883;
     Discovery.CSaveCache (PStr "192.168.68.102")] ∧
  (Discovery.disk_writable e = true →
     Discovery.cache_file run.1 = Some "192.168.68.102") ∧
  (∀ c, c ∈ Discovery.calls_since e run.1 →
     Discovery.is_scan c = false ∧ Discovery.is_cache_read c = false).
Proof.
  apply (discover_configured_first Discovery.example_env "192.168.68.102" 8883 None).
  - discriminate.
  - reflexivity.
Defined.

(** ** Frames: what a method leaves alone *)

Section frames.
Context {B : Type} (f : state → B).

Lemma preserves_ret {A} (a : A) : preserves f (ret a).
Proof. done. Qed.
Lemma preserves_raise {A} (e : exn) : preserves f (@raise A e).
Proof. done. Qed.
Lemma preserves_lift {A} (r : pyres A) : preserves f (lift r).
Proof. done. Qed.
Lemma preserves_get {A} (g : state → A) : preserves f (get g).
Proof. done. Qed.
Lemma preserves_modify (g : state → state) :
  (∀ st, f (g st) = f st) → preserves f (modify g).
Proof. intros Hg st. apply Hg. Qed.
Lemma preserves_bind {A C} (m : Py A) (k : A → Py C) :
  preserves f m → (∀ a, preserves f (k a)) → preserves f (bind m k).
Proof.
  intros Hm Hk st. unfold bind. specialize (Hm st).
  destruct (m st) as [st1 [a|e]]; simpl in *; [|done].
  by rewrite Hk.
Qed.
Lemma preserves_try_except {A} (m : Py A) (h : exn → Py A) :
  preserves f m → (∀ e, preserves f (h e)) → preserves f (try_except m h).
Proof.
  intros Hm Hh st. unfold try_except. specialize (Hm st).
  destruct (m st) as [st1 [a|e]]; simpl in *; [done|].
  by rewrite Hh.
Qed.
Lemma preserves_new_dict :
  (∀ h st, f (set_heap h st) = f st) → preserves f new_dict.
Proof. intros Hh st. apply Hh. Qed.
Lemma preserves_on_disk {A} (m : Discovery.Io A) :
  (∀ d st, f (set_disk d st) = f st) → preserves f (on_disk m).
Proof.
  intros Hd st. unfold on_disk. destruct (m (disk st)) as [d a]. apply Hd.
Qed.
End frames.

Ltac frame_step :=
  lazymatch goal with
  | |- preserves _ (bind _ _) => apply preserves_bind; [|intros ?]
  | |- preserves _ (ret _) => apply preserves_ret
  | |- preserves _ (raise _) => apply preserves_raise
  | |- preserves _ (lift _) => apply preserves_lift
  | |- preserves _ (get _) => apply preserves_get
  | |- preserves _ (modify _) => apply preserves_modify; intros ?; reflexivity
  | |- preserves _ (status_set _ _) => apply preserves_modify; intros ?; reflexivity
  | |- preserves _ (try_except _ _) => apply preserves_try_except; [|intros ?]
  | |- preserves _ (on_disk _) => apply preserves_on_disk; intros ? ?; reflexivity
  | |- preserves _ new_dict => apply preserves_new_dict; intros ? ?; reflexivity
  | |- preserves _ (if ?b then _ else _) => destruct b
  | |- preserves _ (match ?x with _ => _ end) => destruct x
  end.

Ltac frame := repeat frame_step.

(** Turn a goal about the state a method reaches into a frame. *)
Ltac as_frame f :=
  match goal with
  | |- f (?m ?s).1 = f ?s =>
      let H := fresh "Hpres" in assert (H : preserves f m); [|apply H]
  end.


Ltac unfold_handlers :=
  unfold _on_message, dispatch, route, _track_control_command, heart_beat,
    _handle_data_feedback, record_trail, merge_device_msg, _handle_command_reply,
    signal_waiting_caller.

Lemma merge_items_preserves {B} (f : state → B) items :
  (∀ v st, f (set__device_msg v st) = f st) →
  preserves f (merge_items items).
Proof.
  intros Hf. induction items as [|[key value] rest IH]; simpl; [done|].
  apply preserves_bind; [|done].
  unfold merge_item.
  repeat first [ apply preserves_modify; intros ?; apply Hf | frame_step ].
Qed.

Ltac frame_inbound :=
  unfold_handlers;
  repeat first
    [ apply merge_items_preserves; intros ? ?; reflexivity | frame_step ].

(** The handlers of inbound messages do not touch the reconnection
    counter, the payload objects or the published messages. *)
Lemma on_message_disconnect_count L msg :
  preserves _disconnect_count (_on_message L msg).
Proof. frame_inbound. Qed.

Lemma on_message_heap L msg : preserves heap (_on_message L msg).
Proof. frame_inbound. Qed.

Lemma on_message_outbox L msg : preserves outbox (_on_message L msg).
Proof. frame_inbound. Qed.

Lemma deliver_preserves_in {B} (f : state → B) L msgs :
  (∀ msg, msg ∈ msgs → preserves f (_on_message L msg)) →
  ∀ st, f (deliver L msgs st) = f st.
Proof.
  unfold deliver.
  induction msgs as [|msg rest IH] using rev_ind; intros Hf st; [done|].
  rewrite foldl_app. simpl. rewrite Hf by set_solver.
  apply IH. intros m Hm. apply Hf. set_solver.
Qed.

Lemma deliver_preserves {B} (f : state → B) L msgs :
  (∀ msg, preserves f (_on_message L msg)) →
  ∀ st, f (deliver L msgs st) = f st.
Proof. intros Hf. apply deliver_preserves_in. auto. Qed.

(** ** Decoding *)

Lemma gzip_magic_spec (payload : bytes) :
  gzip_magic payload = true ↔ ∃ rest, payload = x1f :: x8b :: rest.
Proof.
  unfold gzip_magic. split.
  - destruct payload as [|b0 [|b1 rest]]; simpl; try done.
    intros [H0 H1]%andb_prop.
    apply Byte.byte_dec_bl in H0, H1. subst. by exists rest.
  - intros [rest ->]. reflexivity.
Qed.

Lemma decompress_ok L payload : ∃ raw, _decompress L payload = Ok raw.
Proof.
  unfold _decompress, catch.
  destruct (gzip_magic payload);
    [destruct (gzip_read L payload)|destruct (zlib_decompress L payload)];
    eauto.
Qed.

(** C4.  [_decompress] returns for every payload; a payload that starts
    with the bytes 1f 8b is read as gzip and any other payload is handed to
    zlib, and the result of the chosen decoder is returned when it
    succeeds; when the chosen decoder raises, and so in particular when both
    would, the payload comes back unchanged. *)
Theorem decompress_total (L : pylib) (payload : bytes) :
  (∃ out, _decompress L payload = Ok out) ∧
  (∀ rest out, payload = x1f :: x8b :: rest →
     gzip_read L payload = Ok out → _decompress L payload = Ok out) ∧
  (∀ rest e, payload = x1f :: x8b :: rest →
     gzip_read L payload = Raise e → _decompress L payload = Ok payload) ∧
  (∀ out, (∀ rest, payload ≠ x1f :: x8b :: rest) →
     zlib_decompress L payload = Ok out → _decompress L payload = Ok out) ∧
  (∀ e, (∀ rest, payload ≠ x1f :: x8b :: rest) →
     zlib_decompress L payload = Raise e → _decompress L payload = Ok payload) ∧
  (∀ e1 e2, gzip_read L payload = Raise e1 →
     zlib_decompress L payload = Raise e2 → _decompress L payload = Ok payload).
Proof.
  unfold _decompress, catch.
  destruct (gzip_magic payload) eqn:Hm.
  - apply gzip_magic_spec in Hm as [rest0 Hp].
    repeat split.
    + destruct (gzip_read L payload); eauto.
    + by intros rest out _ ->.
    + by intros rest e _ ->.
    + intros out Hno. by destruct (Hno rest0).
    + intros e Hno. by destruct (Hno rest0).
    + by intros e1 e2 -> _.
  - assert (Hno : ∀ rest, payload ≠ x1f :: x8b :: rest).
    { intros rest Hp. assert (gzip_magic payload = true) as Ht
        by (apply gzip_magic_spec; eauto). congruence. }
    repeat split.
    + destruct (zlib_decompress L payload); eauto.
    + intros rest out Hp. by destruct (Hno rest).
    + intros rest e Hp. by destruct (Hno rest).
    + by intros out _ ->.
    + by intros e _ ->.
    + by intros e1 e2 _ ->.
Qed.

(** A payload with the gzip magic that is not a gzip stream comes back as
    it was. *)
Example decompress_garbage :
  _decompress example_lib [x1f; x8b; x00] = Ok [x1f; x8b; x00].
Proof. reflexivity. Qed.

(** ** Reconnection *)

Lemma on_disconnect_step (t : instant) (rc : Z) (st : state) :
  let k := _disconnect_count st + 1 in
  let st' := (_on_disconnect t rc st).1 in
  _disconnect_count st' = k ∧
  _connected st' = false ∧
  _status st' !! "connected" = Some (PBool false) ∧
  rediscovery_requests st' =
    (rediscovery_requests st +
       if ((1 <? k) && ((k =? 3) || (k `mod` 10 =? 0)))%Z then 1 else 0)%nat.
Proof.
  unfold _on_disconnect, _try_rediscovery, status_set, bind, modify, get, ret.
  cbn.
  assert (Hreq : ∀ tr,
    length (List.filter is_request (tr ++ [RediscoveryRequested]))
    = (length (List.filter is_request tr) + 1)%nat).
  { intros tr. rewrite List.filter_app, length_app. reflexivity. }
  assert (Hthr : ∀ tr n,
    length (List.filter is_request (tr ++ [ThreadStarted n]))
    = length (List.filter is_request tr)).
  { intros tr n. rewrite List.filter_app, length_app. simpl. lia. }
  destruct (Z.leb_spec (_disconnect_count st + 1) 1) as [Hle|Hgt].
  - replace (1 <? _disconnect_count st + 1) with false
      by (symmetry; apply Z.ltb_ge; lia).
    cbn. rewrite lookup_insert_eq. unfold rediscovery_requests.
    repeat split; lia.
  - replace (1 <? _disconnect_count st + 1) with true
      by (symmetry; apply Z.ltb_lt; lia).
    cbn [andb].
    destruct (_disconnect_count st + 1 =? 3) eqn:H3; cbn [orb].
    + cbn. destruct (_rediscovery_in_progress st); cbn;
        [|destruct (PrimFloat.ltb _ _); cbn];
        rewrite lookup_insert_eq; unfold rediscovery_requests; cbn;
        rewrite ?Hthr, ?Hreq; repeat split; lia.
    + destruct ((_disconnect_count st + 1) `mod` 10 =? 0) eqn:H10.
      * cbn. destruct (_rediscovery_in_progress st); cbn;
          [|destruct (PrimFloat.ltb _ _); cbn];
          rewrite lookup_insert_eq; unfold rediscovery_requests; cbn;
          rewrite ?Hthr, ?Hreq; repeat split; lia.
      * cbn. rewrite lookup_insert_eq. unfold rediscovery_requests. cbn.
        repeat split; lia.
Qed.

Lemma send_command_disconnect_count L command payload wait timeout uuid12 inflight :
  preserves _disconnect_count
    (send_command L command payload wait timeout uuid12 inflight).
Proof.
  unfold send_command, new_dict, publish, forget_event.
  repeat first
    [ apply preserves_modify; intros ?;
      apply (deliver_preserves _disconnect_count), on_message_disconnect_count
    | frame_step
    | by intros ? ].
Qed.

Lemma request_each_disconnect_count L cmds :
  preserves _disconnect_count (request_each L cmds).
Proof.
  induction cmds as [|cmd rest IH]; simpl; [done|].
  repeat first [ apply send_command_disconnect_count | frame_step ]; done.
Qed.

Lemma disconnects_snoc events ev st :
  disconnects (events ++ [ev]) st =
  (_on_disconnect ev.1 ev.2 (disconnects events st)).1.
Proof. unfold disconnects. by rewrite foldl_app. Qed.

Lemma disconnects_count events st :
  _disconnect_count (disconnects events st) =
  _disconnect_count st + Z.of_nat (length events).
Proof.
  induction events as [|ev rest IH] using rev_ind; [simpl; lia|].
  rewrite disconnects_snoc, length_app. simpl.
  destruct (on_disconnect_step ev.1 ev.2 (disconnects rest st)) as [-> _].
  rewrite IH. lia.
Qed.

(** C8.  From a state whose failure counter is zero, the k-th disconnect
    event in a row leaves the counter at k with the connection marked down,
    and calls [_try_rediscovery] exactly when k is 3 or a multiple of 10;
    three events in a row therefore make one call and leave the counter at
    3; and a connect event with reason code 0 resets the counter. *)
Theorem rediscovery_thresholds (L : pylib) (st : state)
    (events : list (instant * Z)) :
  _disconnect_count st = 0 →
  (∀ before ev after, events = before ++ ev :: after →
     let k := Z.of_nat (length before) + 1 in
     let s := disconnects before st in
     let s' := (_on_disconnect ev.1 ev.2 s).1 in
     _disconnect_count s' = k ∧ _connected s' = false ∧
     rediscovery_requests s' =
       (rediscovery_requests s +
          if ((k =? 3) || (k `mod` 10 =? 0))%Z then 1 else 0)%nat) ∧
  (length events = 3%nat →
     rediscovery_requests (disconnects events st) =
       (rediscovery_requests st + 1)%nat ∧
     _disconnect_count (disconnects events st) = 3) ∧
  _disconnect_count (_on_connect L 0 (disconnects events st)).1 = 0.
Proof.
  intros H0. split; [|split].
  - intros before ev after _. cbn zeta.
    destruct (on_disconnect_step ev.1 ev.2 (disconnects before st))
      as (Hc & Hd & _ & Hr).
    rewrite disconnects_count, H0 in Hc, Hr.
    rewrite Hc, Hd, Hr. split; [lia|]. split; [done|].
    replace (0 + Z.of_nat (length before) + 1)
      with (Z.of_nat (length before) + 1) by lia.
    destruct (Z.ltb_spec 1 (Z.of_nat (length before) + 1)); [done|].
    replace (Z.of_nat (length before) + 1) with 1 by lia. reflexivity.
  - intros Hlen.
    destruct events as [|e1 [|e2 [|e3 [|]]]]; try discriminate.
    change [e1; e2; e3] with (([e1] ++ [e2]) ++ [e3]).
    rewrite !disconnects_snoc. change (disconnects [e1] st)
      with (_on_disconnect e1.1 e1.2 st).1.
    destruct (on_disconnect_step e1.1 e1.2 st) as (C1 & _ & _ & R1).
    destruct (on_disconnect_step e2.1 e2.2 (_on_disconnect e1.1 e1.2 st).1)
      as (C2 & _ & _ & R2).
    destruct (on_disconnect_step e3.1 e3.2
      (_on_disconnect e2.1 e2.2 (_on_disconnect e1.1 e1.2 st).1).1)
      as (C3 & _ & _ & R3).
    rewrite C2, C1, H0 in C3, R3. rewrite C1, H0 in R2. rewrite H0 in R1.
    rewrite C3, R3, R2, R1. simpl. split; lia.
  - unfold _on_connect. change (0 =? 0) with true. cbv iota.
    set (s := disconnects events st).
    unfold bind at 1. unfold modify at 1. cbn iota beta.
    unfold bind at 1. unfold modify at 1. cbn iota beta.
    match goal with |- _disconnect_count (?m ?s0).1 = 0 =>
      assert (Hp : preserves _disconnect_count m); [|rewrite Hp; reflexivity]
    end.
    unfold _request_initial_state, _confirm_robot_ip, _start_refresh_thread.
    repeat first [ apply request_each_disconnect_count
                 | apply send_command_disconnect_count | frame_step ].
Qed.

(** Three disconnects of the example client: one request, counter 3. *)
Lemma rediscovery_thresholds_witness :
  rediscovery_requests
    (disconnects [(noon, 7); (noon, 7); (noon, 7)] example_client) = 1%nat ∧
  _disconnect_count
    (disconnects [(noon, 7); (noon, 7); (noon, 7)] example_client) = 3.
Proof.
  apply (rediscovery_thresholds example_lib example_client
           [(noon, 7); (noon, 7); (noon, 7)]); reflexivity.
Defined.

(** On a client that has not run discovery before, the three disconnects
    start one discovery thread. *)
Example three_disconnects_one_thread :
  trace (disconnects [(noon, 7); (noon, 7); (noon, 7)] example_client)
  = [RediscoveryRequested; ThreadStarted "mqtt-rediscovery"].
Proof. vm_compute. reflexivity. Qed.

(** ** Routing *)

(** The state a message leaves behind is the one its handlers reach,
    whether or not they raise. *)
Lemma on_message_run L msg st :
  (_on_message L msg st).1 =
  match decoded L msg with
  | Some data => (dispatch L (msg_topic msg) (received msg) data st).1
  | None => st
  end.
Proof.
  unfold _on_message, decoded, try_except, bind, lift.
  destruct (decompress_ok L (msg_payload msg)) as [raw ->].
  destruct (json_loads_bytes L raw) as [data|]; [|done].
  by destruct (dispatch _ _ _ _ _) as [st1 [[]|e]].
Qed.

Lemma track_returns t tp data st :
  (_track_control_command t tp data st).2 = Ok tt.
Proof.
  unfold _track_control_command, bind, modify, get, ret.
  destruct (negb _); [done|]. cbn.
  by destruct (_ <? _).
Qed.

Lemma dispatch_run L tp t data st :
  (dispatch L tp t data st).1 =
  (route L tp t data (_track_control_command t tp data st).1).1.
Proof.
  unfold dispatch, bind. pose proof (track_returns t tp data st) as Hr.
  destruct (_track_control_command t tp data st) as [st1 r].
  simpl in Hr. by subst r.
Qed.

Lemma bind_lift_ok {A B} (a : A) (k : A → Py B) :
  bind (lift (Ok a)) k = k a.
Proof. reflexivity. Qed.

Lemma bind_tail {A C B} (f : state → B) (m : Py A) (k : A → Py C) st :
  (∀ a, preserves f (k a)) → f (bind m k st).1 = f (m st).1.
Proof.
  intros Hk. unfold bind. destruct (m st) as [st1 [a|e]]; [apply Hk|done].
Qed.

(** ** Activity names *)

Lemma signal_preserves_status req_id data :
  preserves _status (signal_waiting_caller req_id data).
Proof. unfold signal_waiting_caller. frame. Qed.

Lemma heart_beat_state t hb st ws_code name :
  hb !! "working_state" = Some ws_code →
  int_table_get state_map ws_code = Ok name →
  _status (heart_beat t (PDict hb) st).1 !! "state"
    = Some (PStr (default "unknown" name)).
Proof.
  intros Hws Hname.
  unfold heart_beat, status_set, bind, modify, lift, py_contains, py_index.
  cbn. rewrite Hws. cbn. rewrite Hname. cbn.
  rewrite lookup_insert_ne by done. by rewrite lookup_insert_eq.
Qed.

Lemma running_status_state L t fb p sc st name :
  fb !! "topic" = Some (PStr "runningStatus") →
  fb !! "data" = Some (PDict p) →
  p !! "state" = Some sc → sc ≠ PNone →
  _decode_state L sc = Ok name →
  _status (_handle_data_feedback L t (PDict fb) st).1 !! "state"
    = Some (PStr name).
Proof.
  intros Ht Hd Hs Hn Hname.
  unfold _handle_data_feedback. unfold py_get at 1 2 3. rewrite Ht, Hd.
  rewrite !bind_lift_ok.
  change (bind (status_set ?k ?v) ?rest st)
    with (rest tt (set__status (<[k := v]> (_status st)) st)).
  cbv beta.
  rewrite (bind_tail _status) by (intros; apply signal_preserves_status).
  cbn. rewrite Hs. cbn.
  assert (is_none sc = false) as -> by (by destruct sc).
  cbn. rewrite Hname. cbn. by rewrite lookup_insert_eq.
Qed.

(** C10.  The same state code names different activities on the two
    paths.  A heartbeat message that carries [working_state = code] leaves
    the name [state_map] gives the code in the snapshot, a runningStatus
    data-feedback message that carries [state = code] leaves the name
    [_decode_state] gives it; for each of the codes 1, 2, 4 and 5 the two
    names differ, and for 2 they are "working" and "paused". *)
Theorem activity_names_diverge (L : pylib) (st : state)
    (beat feedback : inbound) (hb fb p : pydict) (code : Z) :
  contains "heart_beat" (msg_topic beat) = true →
  decoded L beat = Some (PDict hb) →
  hb !! "working_state" = Some (PInt code) →
  feedback_frame L feedback = Some (PDict fb) →
  fb !! "topic" = Some (PStr "runningStatus") →
  fb !! "data" = Some (PDict p) →
  p !! "state" = Some (PInt code) →
  code ∈ [1; 2; 4; 5] →
  ∃ by_heartbeat by_feedback : string,
    (code, by_heartbeat) ∈ state_map ∧
    (code, by_feedback) ∈ states ∧
    _decode_state L (PInt code) = Ok by_feedback ∧
    _status (_on_message L beat st).1 !! "state"
      = Some (PStr by_heartbeat) ∧
    _status (_on_message L feedback st).1 !! "state"
      = Some (PStr by_feedback) ∧
    by_heartbeat ≠ by_feedback ∧
    (code = 2 → by_heartbeat = "working" ∧ by_feedback = "paused").
Proof.
  intros Hbt Hbd Hws Hff Ht Hd Hs Hcode.
  unfold feedback_frame in Hff.
  destruct (contains "heart_beat" (msg_topic feedback)) eqn:Hf1; [done|].
  destruct (contains "data_feedback" (msg_topic feedback)) eqn:Hf2; [|done].
  simpl in Hff.
  rewrite !on_message_run, Hbd, Hff, !dispatch_run.
  unfold route. rewrite Hbt, Hf1, Hf2.
  assert (Hcases : code = 1 ∨ code = 2 ∨ code = 4 ∨ code = 5).
  { apply list_elem_of_In in Hcode. simpl in Hcode. intuition. }
  destruct Hcases as [->|[->|[->| ->]]].
  - exists "idle", "working".
    rewrite (heart_beat_state _ _ _ (PInt 1) (Some "idle")) by done.
    rewrite (running_status_state L _ _ p (PInt 1) _ "working") by done.
    repeat split; try done; apply list_elem_of_In; simpl; tauto.
  - exists "working", "paused".
    rewrite (heart_beat_state _ _ _ (PInt 2) (Some "working")) by done.
    rewrite (running_status_state L _ _ p (PInt 2) _ "paused") by done.
    repeat split; try done; apply list_elem_of_In; simpl; tauto.
  - exists "docking", "error".
    rewrite (heart_beat_state _ _ _ (PInt 4) (Some "docking")) by done.
    rewrite (running_status_state L _ _ p (PInt 4) _ "error") by done.
    repeat split; try done; apply list_elem_of_In; simpl; tauto.
  - exists "error", "docking".
    rewrite (heart_beat_state _ _ _ (PInt 5) (Some "error")) by done.
    rewrite (running_status_state L _ _ p (PInt 5) _ "docking") by done.
    repeat split; try done; apply list_elem_of_In; simpl; tauto.
Qed.

(** A heartbeat and a runningStatus message, both with code 2. *)
Lemma activity_names_diverge_witness :
  _status (_on_message example_lib example_beat example_client).1 !! "state"
    = Some (PStr "working") ∧
  _status (_on_message example_lib example_feedback example_client).1 !! "state"
    = Some (PStr "paused").
Proof.
  destruct (activity_names_diverge example_lib example_client
              example_beat example_feedback
              {["working_state" := PInt 2]}
              (<["topic" := PStr "runningStatus"]>
                 {["data" := PDict {["state" := PInt 2]}]})
              {["state" := PInt 2]} 2)
    as (a & b & _ & _ & _ & Ha & Hb & _ & H2);
    try reflexivity.
  - apply list_elem_of_In. simpl. tauto.
  - destruct (H2 eq_refl) as [-> ->]. by split.
Defined.

(** ** Correlation *)


Lemma waiting_key_found events k :
  k ≠ "" → is_Some (events !! k) → waiting_key (PStr k) events = Ok (Some k).
Proof.
  intros Hk Hin. unfold waiting_key. cbn.
  destruct (String.eqb_spec k ""); [done|]. cbn.
  by destruct (decide _).
Qed.




Lemma carried_req_id_dict d :
  py_get (PDict d) "req_id" PNone = Ok (carried_req_id (PDict d)).
Proof. reflexivity. Qed.





(** ** Sending a command *)

Lemma send_command_down L command payload wait timeout uuid12 inflight st :
  session_up st = false →
  send_command L command payload wait timeout uuid12 inflight st
  = (st, Raise (ConnectionError "Not connected to robot MQTT")).
Proof.
  unfold session_up, send_command, bind, get, raise. cbn.
  intros H.
  destruct (bool_decide _), (_connected st); cbn in *; done.
Qed.

Lemma is_req_id_truthy uuid12 :
  is_req_id uuid12 = true → negb (uuid12 =? "")%string = true.
Proof.
  unfold is_req_id. intros [Hlen _]%andb_prop.
  apply bool_decide_eq_true in Hlen. by destruct uuid12.
Qed.

(** Past the guard of [send_command]: unfold the calls up to the test of
    the result code. *)
Ltac enter_send Hup :=
  let Hc := fresh "Hc" in
  let Hu := fresh "Hu" in
  unfold session_up in Hup; apply andb_prop in Hup as [Hc Hu];
  unfold send_command;
  unfold bind at 1; unfold get at 1; cbv iota beta;
  unfold bind at 1; unfold get at 1; cbv iota beta;
  rewrite Hc, Hu; cbn [negb orb].

(** C3.  [send_command] raises [ConnectionError] exactly when the session is
    not up, and then leaves the whole state, the table of pending requests
    included, as it was; when the session is up and [publish] returns a
    result code other than zero it raises [RuntimeError], and the entry
    registered for a waiting call is removed first, so that the table has
    no entry under the new id. *)
Theorem send_command_failures (L : pylib) (command : string)
    (payload : option nat) (wait : bool) (timeout : float) (uuid12 : string)
    (inflight : list inbound) (st : state) :
  let run := send_command L command payload wait timeout uuid12 inflight st in
  let rc := publish_rc st (length (outbox st)) in
  ((∃ msg, run.2 = Raise (ConnectionError msg)) ↔ session_up st = false) ∧
  (session_up st = false → run.1 = st) ∧
  (session_up st = true → rc ≠ 0 →
     run.2 = Raise (RuntimeError ("MQTT publish failed: rc=" +:+ pretty rc)) ∧
     (wait = true → is_req_id uuid12 = true →
        _response_events run.1 = delete uuid12 (_response_events st) ∧
        _response_events run.1 !! uuid12 = None) ∧
     (wait = false → _response_events run.1 = _response_events st)).
Proof.
  cbn zeta. destruct (session_up st) eqn:Hup.
  - destruct (send_command L command payload wait timeout uuid12 inflight st)
      as [st' r] eqn:Hrun.
    cbn [fst snd]. revert Hrun. enter_send Hup.
    split; [|split]; [|done|].
    + split; [|done]. intros [msg ->]. exfalso. revert Hrun.
      destruct payload as [p|], wait; cbn;
        (destruct (publish_outcome st (length (outbox st))) as [rc|[]]; cbn;
         [destruct (negb (rc =? 0))|..]);
        try destruct (negb (uuid12 =? "")%string); cbn;
        rewrite ?lookup_insert_eq; cbn;
        try destruct (wait_overflows L timeout); cbn; done.
    + intros _ Hrc. unfold publish_rc in *.
      destruct (publish_outcome st (length (outbox st))) as [rc|f] eqn:Hout;
        [|done].
      assert (negb (rc =? 0) = true) as Hne.
      { apply negb_true_iff. apply Z.eqb_neq. exact Hrc. }
      revert Hrun.
      destruct payload as [p|], wait; cbn; rewrite Hout; cbn; rewrite Hne.
      all: try (destruct (negb (uuid12 =? "")%string) eqn:Hid; cbn).
      all: intros [= <- <-]; cbn.
      all: split; [done|]; split; [|done].
      all: intros Hw Hid'; try done.
      all: try (rewrite (is_req_id_truthy _ Hid') in Hid; done).
      all: rewrite delete_insert_eq; split; [done|apply lookup_delete_eq].
  - rewrite send_command_down by done. cbn.
    split; [|done]. split; [done|]. eauto.
Qed.

(** C9.  A waiting call on a session that is up writes into the dict
    object the caller handed over: whatever comes of the publish (a result
    code or an exception), of the wait and of what arrives during it,
    after the call the object holds [req_id], bound to the new id, next to
    its other keys, which are as before; and it is that dict, with the key,
    that was handed on to be serialised and published, in the one attempt
    of the call, whether that attempt got a result code or raised. *)
Theorem payload_mutated (L : pylib) (command : string) (p : nat) (d : pydict)
    (timeout : float) (uuid12 : string) (inflight : list inbound)
    (st : state) :
  session_up st = true →
  heap st !! p = Some d →
  let run := send_command L command (Some p) true timeout uuid12 inflight st in
  ∃ d' : pydict,
    heap run.1 !! p = Some d' ∧
    d' = <["req_id" := PStr uuid12]> d ∧
    d' !! "req_id" = Some (PStr uuid12) ∧
    (∀ k, k ≠ "req_id" → d' !! k = d !! k) ∧
    (∃ pub, outbox run.1 = outbox st ++ [pub] ∧ pub_payload pub = d' ∧
       pub_outcome pub = publish_outcome st (length (outbox st))).
Proof.
  intros Hup Hp. cbn zeta.
  exists (<["req_id" := PStr uuid12]> d).
  destruct (send_command L command (Some p) true timeout uuid12 inflight st)
    as [st' r] eqn:Hrun.
  cbn [fst snd]. revert Hrun. enter_send Hup. cbn.
  destruct (publish_outcome st (length (outbox st))) as [rc|f]; cbn;
    [destruct (negb (rc =? 0))|];
    try destruct (negb (uuid12 =? "")%string); cbn;
    rewrite ?lookup_insert_eq; cbn;
    try destruct (wait_overflows L timeout); cbn;
    intros [= <- <-]; cbn.
  all: rewrite ?(deliver_preserves heap) by apply on_message_heap.
  all: rewrite ?(deliver_preserves outbox) by apply on_message_outbox.
  all: cbn; rewrite lookup_alter_eq, Hp; cbn.
  all: split; [done|]; split; [done|]; split; [by rewrite ?lookup_insert_eq|].
  all: split; [by intros k Hk; rewrite lookup_insert_ne|].
  all: eexists; split; [reflexivity|done].
Qed.




(** On a session that is down the call raises before it touches the
    payload: the dict of the caller is as it was, without [req_id]. *)
Lemma payload_untouched_when_down :
  ¬ (∀ (L : pylib) (command : string) (p : nat) (d : pydict)
       (timeout : float) (uuid12 : string) (inflight : list inbound)
       (st : state),
       heap st !! p = Some d →
       let run :=
         send_command L command (Some p) true timeout uuid12 inflight st in
       ∃ d' : pydict,
         heap run.1 !! p = Some d' ∧ d' !! "req_id" = Some (PStr uuid12)).
Proof.
  intros H.
  destruct (H example_lib "get_map" 0%nat {["id" := PInt 1]} 5%float
              "0123456789ab" []
              (set__connected false example_caller) eq_refl)
    as (d' & Hd' & Hid).
  vm_compute in Hd'. injection Hd' as <-. vm_compute in Hid. discriminate Hid.
Qed.

(** A caller that passes its own dict [{"id": 1}]. *)
Lemma payload_mutated_witness :
  ∃ d' : pydict,
    heap (send_command example_lib "read_global_params" (Some 0%nat) true
            5%float "0123456789ab" [] example_caller).1 !! 0%nat = Some d' ∧
    d' !! "req_id" = Some (PStr "0123456789ab") ∧
    d' !! "id" = Some (PInt 1).
Proof.
  destruct (payload_mutated example_lib "read_global_params" 0%nat
              {["id" := PInt 1]} 5%float "0123456789ab" [] example_caller
              eq_refl eq_refl)
    as (d' & Hd' & _ & Hid & Hrest & _).
  exists d'. split; [exact Hd'|]. split; [exact Hid|].
  rewrite Hrest by discriminate. reflexivity.
Defined.

(** ** Correlation, end to end *)








(** The reply to a pending [get_map] request. *)
Example reply_reaches_its_request :
  let st := set__response_events {["0123456789ab" := false]} example_client in
  let st' := (_on_message example_lib example_reply st).1 in
  _response_events st' !! "0123456789ab" = Some true ∧
  is_Some (_command_responses st' !! "0123456789ab").
Proof. vm_compute. split; [done|eauto]. Qed.

(** ** The breadcrumb trail *)

Lemma keep_last_short {A} (n : nat) (l : list A) :
  (length l ≤ n)%nat → keep_last n l = l.
Proof.
  intros Hle. unfold keep_last.
  replace (length l - n)%nat with 0%nat by lia. done.
Qed.

Lemma length_keep_last {A} (n : nat) (l : list A) :
  length (keep_last n l) = Nat.min n (length l).
Proof. unfold keep_last. rewrite length_drop. lia. Qed.

Lemma keep_last_app {A} (n : nat) (a b : list A) :
  keep_last n (keep_last n a ++ b) = keep_last n (a ++ b).
Proof.
  destruct (decide (length a ≤ n)%nat) as [Hle|Hgt].
  { by rewrite (keep_last_short n a). }
  unfold keep_last. rewrite !length_app, length_drop.
  replace (length a - (length a - n) + length b - n)%nat
    with (length b) by lia.
  replace (length a + length b - n)%nat
    with ((length a - n) + length b)%nat by lia.
  rewrite <- drop_drop. f_equal.
  rewrite drop_app_le by lia. done.
Qed.

Lemma keep_last_app_long {A} (n : nat) (a b : list A) :
  (n ≤ length b)%nat → keep_last n (a ++ b) = drop (length b - n) b.
Proof.
  intros Hle. unfold keep_last. rewrite length_app.
  replace (length a + length b - n)%nat
    with (length a + (length b - n))%nat by lia.
  by rewrite drop_app_add.
Qed.

(** The trimming of [record_trail], for a positive bound. *)
Lemma trim_keep_last {A} (bound : Z) (l : list A) :
  0 < bound →
  (if bound <? Z.of_nat (length l) then slice_from (- bound) l else l)
  = keep_last (Z.to_nat bound) l.
Proof.
  intros Hpos. destruct (Z.ltb_spec bound (Z.of_nat (length l))) as [Hlt|Hge].
  - unfold slice_from, keep_last.
    replace (- bound <? 0) with true by (symmetry; apply Z.ltb_lt; lia).
    f_equal. lia.
  - rewrite keep_last_short; [done|lia].
Qed.

Lemma eq_str_true v s : eq_str v s = true → v = PStr s.
Proof.
  destruct v; try done. simpl. intros H. f_equal. by apply String.eqb_eq.
Qed.

Lemma job_flag_inv data b :
  job_flag data = Some b →
  ∃ d p sm,
    data = PDict d ∧
    default (PStr "") (d !! "topic") = PStr "get_device_msg" ∧
    default (PDict d) (d !! "data") = PDict p ∧
    default (PDict ∅) (p !! "StateMSG") = PDict sm ∧
    truthy (default (PInt 0) (sm !! "on_going_planning")) = b.
Proof.
  unfold job_flag. destruct data as [| | | | | |d]; try done.
  destruct (eq_str _ _) eqn:Ht; [|done]. apply eq_str_true in Ht.
  destruct (default (PDict d) (d !! "data")) as [| | | | | |p] eqn:Hp; try done.
  destruct (default (PDict ∅) (p !! "StateMSG")) as [| | | | | |sm] eqn:Hsm;
    try done.
  intros [= <-]. by exists d, p, sm.
Qed.

Lemma signal_preserves_trail req_id data :
  preserves trail_part (signal_waiting_caller req_id data).
Proof. unfold signal_waiting_caller. frame. Qed.

(** A device-message frame reaches [record_trail] with its payload. *)
Lemma feedback_device_msg L t d p st :
  default (PStr "") (d !! "topic") = PStr "get_device_msg" →
  default (PDict d) (d !! "data") = PDict p →
  trail_part (_handle_data_feedback L t (PDict d) st).1 =
  trail_part (record_trail t (PDict p)
    (set__device_msg (PDict p)
       (set__status (<["last_data_feedback" := PStr (now_iso t)]> (_status st))
          st))).1.
Proof.
  intros Ht Hp. unfold _handle_data_feedback. unfold py_get at 1 2 3.
  rewrite Ht, Hp, !bind_lift_ok.
  change (bind (status_set ?k ?v) ?rest st)
    with (rest tt (set__status (<[k := v]> (_status st)) st)).
  cbv beta.
  rewrite (bind_tail trail_part) by (intros; apply signal_preserves_trail).
  cbn -[record_trail]. done.
Qed.

Lemma feedback_max L t data :
  preserves _max_trail_points (_handle_data_feedback L t data).
Proof. unfold _handle_data_feedback, record_trail, signal_waiting_caller. frame. Qed.

(** [record_trail] on a payload that reports a job in progress and a
    position. *)
Lemma record_trail_sample t p sm od x y st :
  default (PDict ∅) (p !! "StateMSG") = PDict sm →
  truthy (default (PInt 0) (sm !! "on_going_planning")) = true →
  default (PDict ∅) (p !! "CombinedOdom") = PDict od →
  od !! "x" = Some x → od !! "y" = Some y →
  is_none x = false → is_none y = false →
  0 < _max_trail_points st →
  let s := PDict (<["x" := x]> (<["y" := y]>
             {["ts" := default (PFloat (clock t)) (od !! "timestamp")]})) in
  trail_part (record_trail t (PDict p) st).1 =
  (keep_last (Z.to_nat (_max_trail_points st))
     ((if _trail_active st then _trail st else []) ++ [s]), true).
Proof.
  intros Hsm Hflag Hod Hx Hy Hnx Hny Hmax. cbn zeta.
  unfold record_trail. rewrite Hsm, Hod. unfold py_get.
  rewrite !bind_lift_ok, Hflag.
  unfold bind, get, modify, ret, lift, trail_part.
  destruct (_trail_active st) eqn:Hact; cbn; rewrite ?Hact; cbn;
    rewrite Hx; cbn; rewrite Hnx; cbn; rewrite Hy; cbn; rewrite Hny; cbn.
  all: rewrite <- (trim_keep_last _ _ Hmax); cbn.
  all: destruct (_ <? _); cbn; rewrite ?Hact; done.
Qed.

(** ... and on one that reports a job in progress without a position, or
    whose odometry cannot be read. *)
Lemma record_trail_no_sample t p sm st :
  default (PDict ∅) (p !! "StateMSG") = PDict sm →
  truthy (default (PInt 0) (sm !! "on_going_planning")) = true →
  (∀ od x y, default (PDict ∅) (p !! "CombinedOdom") = PDict od →
     od !! "x" = Some x → od !! "y" = Some y →
     is_none x || is_none y = true) →
  trail_part (record_trail t (PDict p) st).1 =
  (if _trail_active st then _trail st else [], true).
Proof.
  intros Hsm Hflag Hno.
  unfold record_trail. rewrite Hsm. unfold py_get at 1.
  rewrite !bind_lift_ok, Hflag.
  unfold bind, get, modify, ret, lift, trail_part.
  destruct (default (PDict ∅) (p !! "CombinedOdom")) as [| | | | | |od] eqn:Hod.
  1-6: destruct (_trail_active st) eqn:Hact;
    repeat (progress (cbn; rewrite ?Hact)); done.
  destruct (_trail_active st) eqn:Hact; repeat (progress (cbn; rewrite ?Hact)).
  all: destruct (od !! "x") as [x|] eqn:Hx; cbn; [|rewrite ?Hact; done].
  all: destruct (is_none x) eqn:Hnx; cbn; [rewrite ?Hact; done|].
  all: destruct (od !! "y") as [y|] eqn:Hy; cbn; [|rewrite ?Hact; done].
  all: specialize (Hno od x y eq_refl Hx Hy); rewrite Hnx in Hno; cbn in Hno.
  all: rewrite Hno; cbn; rewrite ?Hact; done.
Qed.

(** ... and on one that reports no job. *)
Lemma record_trail_idle t p sm st :
  default (PDict ∅) (p !! "StateMSG") = PDict sm →
  truthy (default (PInt 0) (sm !! "on_going_planning")) = false →
  trail_part (record_trail t (PDict p) st).1 = (_trail st, false).
Proof.
  intros Hsm Hflag.
  unfold record_trail. rewrite Hsm. unfold py_get at 1.
  rewrite !bind_lift_ok, Hflag.
  unfold bind, get, modify, ret, lift, trail_part.
  destruct (_trail_active st) eqn:Hact;
    repeat (progress (cbn; rewrite ?Hact)); done.
Qed.


Lemma position_sample_inv t data s :
  position_sample t data = Some s →
  ∃ d p sm od x y,
    data = PDict d ∧
    default (PStr "") (d !! "topic") = PStr "get_device_msg" ∧
    default (PDict d) (d !! "data") = PDict p ∧
    default (PDict ∅) (p !! "StateMSG") = PDict sm ∧
    truthy (default (PInt 0) (sm !! "on_going_planning")) = true ∧
    default (PDict ∅) (p !! "CombinedOdom") = PDict od ∧
    od !! "x" = Some x ∧ od !! "y" = Some y ∧
    is_none x = false ∧ is_none y = false ∧
    s = PDict (<["x" := x]> (<["y" := y]>
          {["ts" := default (PFloat (clock t)) (od !! "timestamp")]})).
Proof.
  unfold position_sample.
  destruct (job_flag data) as [[]|] eqn:Hflag; try done.
  apply job_flag_inv in Hflag as (d & p & sm & -> & Ht & Hp & Hsm & Hf).
  rewrite Hp.
  destruct (default (PDict ∅) (p !! "CombinedOdom")) as [| | | | | |od] eqn:Hod;
    try done.
  destruct (od !! "x") as [x|] eqn:Hx; [|done].
  destruct (od !! "y") as [y|] eqn:Hy; [|done].
  destruct (is_none x) eqn:Hnx; [done|].
  destruct (is_none y) eqn:Hny; [done|].
  cbn. intros [= <-]. by exists d, p, sm, od, x, y.
Qed.

(** One frame with a position sample. *)
Lemma feedback_sample L t data s st :
  position_sample t data = Some s →
  0 < _max_trail_points st →
  trail_part (_handle_data_feedback L t data st).1 =
  (keep_last (Z.to_nat (_max_trail_points st))
     ((if _trail_active st then _trail st else []) ++ [s]), true).
Proof.
  intros (d & p & sm & od & x & y & -> & Ht & Hp & Hsm & Hf & Hod & Hx & Hy
          & Hnx & Hny & ->)%position_sample_inv Hmax.
  rewrite (feedback_device_msg L t d p) by done.
  by rewrite (record_trail_sample t p sm od x y).
Qed.

Lemma feed_cons L fr frames st :
  feed L (fr :: frames) st =
  feed L frames (_handle_data_feedback L fr.1 fr.2 st).1.
Proof. reflexivity. Qed.

Lemma feed_max L frames st :
  _max_trail_points (feed L frames st) = _max_trail_points st.
Proof.
  revert st. induction frames as [|fr rest IH]; intros st; [done|].
  by rewrite feed_cons, IH, feedback_max.
Qed.

(** Frames with position samples, from a state whose trail is active and
    within the bound. *)
Lemma feed_samples L frames samples st :
  Forall2 (λ fr s, position_sample fr.1 fr.2 = Some s) frames samples →
  0 < _max_trail_points st →
  _trail_active st = true →
  (length (_trail st) ≤ Z.to_nat (_max_trail_points st))%nat →
  trail_part (feed L frames st) =
  (keep_last (Z.to_nat (_max_trail_points st)) (_trail st ++ samples), true).
Proof.
  intros Hall. revert st.
  induction Hall as [|fr s frames samples Hs _ IH]; intros st Hmax Hact Hlen.
  - unfold trail_part. cbn. rewrite app_nil_r, keep_last_short, Hact; done.
  - rewrite feed_cons.
    pose proof (feedback_sample L fr.1 fr.2 s st Hs Hmax) as Hstep.
    rewrite Hact in Hstep. unfold trail_part in Hstep.
    injection Hstep as Htr Hac.
    pose proof (feedback_max L fr.1 fr.2 st) as Hm.
    rewrite IH; rewrite ?Hm, ?Htr; try done.
    + by rewrite keep_last_app, <- app_assoc.
    + rewrite length_keep_last. lia.
Qed.

(** C5.  With the bound at 2000, a run of more than 2000 device-message
    frames that each report a job in progress and a position leaves the
    trail active and exactly 2000 long: it is the last 2000 of the samples
    of the run, in the order they arrived. *)
Theorem trail_bounded (L : pylib) (st : state)
    (frames : list (instant * pyval)) (samples : list pyval) :
  _max_trail_points st = 2000 →
  Forall2 (λ fr s, position_sample fr.1 fr.2 = Some s) frames samples →
  (2000 < length frames)%nat →
  let st' := feed L frames st in
  _trail_active st' = true ∧
  length (_trail st') = 2000%nat ∧
  _trail st' = drop (length samples - 2000) samples.
Proof.
  intros Hmax Hall Hlen. cbn zeta.
  pose proof (Forall2_length _ _ _ Hall) as Hsame.
  destruct Hall as [|fr s frames samples Hs Hall]; [simpl in Hlen; lia|].
  rewrite feed_cons.
  assert (0 < _max_trail_points st) as Hpos by lia.
  pose proof (feedback_sample L fr.1 fr.2 s st Hs Hpos) as Hstep.
  unfold trail_part in Hstep. injection Hstep as Htr Hac.
  pose proof (feedback_max L fr.1 fr.2 st) as Hm.
  set (st1 := (_handle_data_feedback L fr.1 fr.2 st).1) in *.
  assert (Hrun : trail_part (feed L frames st1) =
    (keep_last (Z.to_nat (_max_trail_points st1)) (_trail st1 ++ samples),
     true)).
  { apply feed_samples; [done|lia|done|].
    rewrite Htr, Hm, length_keep_last. lia. }
  unfold trail_part in Hrun. injection Hrun as Htrail Hactive.
  rewrite Hm, Htr, Hmax, keep_last_app, <- app_assoc in Htrail.
  rewrite keep_last_app_long in Htrail by (simpl in *; lia).
  change (Z.to_nat 2000) with 2000%nat in Htrail.
  split; [done|]. rewrite Htrail. split; [|done].
  rewrite length_drop. simpl in *. lia.
Qed.



(** 2001 frames with a position. *)
Lemma trail_bounded_witness :
  length (_trail (feed example_lib
            (replicate 2001 (noon, device_frame 1 (Some (1.5, 2.5)%float)))
            example_client)) = 2000%nat.
Proof.
  destruct (trail_bounded example_lib example_client
              (replicate 2001 (noon, device_frame 1 (Some (1.5, 2.5)%float)))
              (replicate 2001 (example_point 1.5 2.5)))
    as (_ & Hlen & _).
  - reflexivity.
  - apply Forall2_replicate. reflexivity.
  - rewrite length_replicate. lia.
  - exact Hlen.
Defined.

(** A frame that does not report a job in progress leaves an inactive
    trail alone. *)
Lemma feedback_keeps_trail L t data st :
  _trail_active st = false →
  job_flag data ≠ Some true →
  trail_part (_handle_data_feedback L t data st).1 = trail_part st.
Proof.
  intros Hact Hflag.
  destruct (job_flag data) as [[]|] eqn:Hjob; [done| |].
  - apply job_flag_inv in Hjob as (d & p & sm & -> & Ht & Hp & Hsm & Hf).
    rewrite (feedback_device_msg L t d p), (record_trail_idle t p sm) by done.
    unfold trail_part. cbn. by rewrite Hact.
  - destruct data as [| | | | | |d]; try done.
    unfold job_flag in Hjob.
    destruct (eq_str (default (PStr "") (d !! "topic")) "get_device_msg")
      eqn:Ht.
    + apply eq_str_true in Ht.
      destruct (default (PDict d) (d !! "data")) as [| | | | | |p] eqn:Hp.
      1-6: unfold _handle_data_feedback; unfold py_get at 1 2 3;
        rewrite Ht, Hp, !bind_lift_ok;
        as_frame trail_part;
        cbn; repeat first [ apply signal_preserves_trail | frame_step ].
      rewrite (feedback_device_msg L t d p) by done.
      unfold record_trail.
      destruct (default (PDict ∅) (p !! "StateMSG")); done.
    + unfold _handle_data_feedback; unfold py_get at 1 2 3.
      rewrite !bind_lift_ok, Ht.
      as_frame trail_part.
      cbv iota.
      repeat first [ apply signal_preserves_trail | frame_step ].
Qed.

Lemma track_preserves_trail t tp data :
  preserves trail_part (_track_control_command t tp data).
Proof. unfold _track_control_command. frame. Qed.

Lemma job_start_false L msg data :
  job_start L msg = false →
  contains "heart_beat" (msg_topic msg) = false →
  contains "data_feedback" (msg_topic msg) = true →
  decoded L msg = Some data →
  job_flag data ≠ Some true.
Proof.
  unfold job_start, feedback_frame. intros Hjs H1 H2 Hd.
  rewrite H1, H2 in Hjs. cbn in Hjs.
  rewrite Hd in Hjs. by apply bool_decide_eq_false in Hjs.
Qed.

Lemma on_message_keeps_trail L msg st :
  _trail_active st = false →
  job_start L msg = false →
  trail_part (_on_message L msg st).1 = trail_part st.
Proof.
  intros Hact Hjs. rewrite on_message_run.
  destruct (decoded L msg) as [data|] eqn:Hd; [|done].
  rewrite dispatch_run.
  pose proof (track_preserves_trail (received msg) (msg_topic msg) data st)
    as Htrack.
  set (st1 := (_track_control_command _ _ _ st).1) in *.
  rewrite <- Htrack. unfold route.
  destruct (contains "heart_beat" (msg_topic msg)) eqn:Hhb.
  { as_frame trail_part. unfold heart_beat. frame. }
  destruct (contains "data_feedback" (msg_topic msg)) eqn:Hfb.
  { apply feedback_keeps_trail.
    - unfold trail_part in Htrack. injection Htrack as _ ->. done.
    - by apply (job_start_false L msg). }
  destruct (contains "DeviceMSG" (msg_topic msg)).
  { as_frame trail_part. unfold merge_device_msg.
    repeat first [ apply merge_items_preserves; intros ? ?; reflexivity
                 | frame_step ]. }
  destruct (_ || _); [|done].
  as_frame trail_part. unfold _handle_command_reply, signal_waiting_caller.
  frame.
Qed.

Lemma deliver_keeps_trail L msgs st :
  _trail_active st = false →
  existsb (job_start L) msgs = false →
  trail_part (deliver L msgs st) = trail_part st.
Proof.
  revert st. induction msgs as [|msg rest IH]; intros st Hact Hno; [done|].
  simpl in Hno. apply orb_false_elim in Hno as [Hmsg Hrest].
  unfold deliver. simpl. fold (deliver L rest (_on_message L msg st).1).
  pose proof (on_message_keeps_trail L msg st Hact Hmsg) as Hstep.
  rewrite IH, Hstep; [done| |done].
  unfold trail_part in Hstep. injection Hstep as _ ->. done.
Qed.

Lemma send_command_keeps_trail L command payload wait timeout uuid12 inflight st :
  _trail_active st = false →
  existsb (job_start L) inflight = false →
  trail_part (send_command L command payload wait timeout uuid12 inflight st).1
  = trail_part st.
Proof.
  intros Hact Hno.
  destruct (session_up st) eqn:Hup;
    [|by rewrite send_command_down].
  destruct (send_command L command payload wait timeout uuid12 inflight st)
    as [st' r] eqn:Hrun.
  cbn [fst]. revert Hrun. enter_send Hup.
  destruct payload as [p|], wait; cbn;
    (destruct (publish_outcome st (length (outbox st))) as [rc|f]; cbn;
     [destruct (negb (rc =? 0))|]);
    try destruct (negb (uuid12 =? "")%string); cbn;
    rewrite ?lookup_insert_eq; cbn;
    try destruct (wait_overflows L timeout); cbn;
    intros [= <- <-]; try done.
  all: match goal with |- context [deliver ?l ?i ?s] =>
         pose proof (deliver_keeps_trail l i s Hact Hno) as Hd
       end.
  all: unfold trail_part in Hd; injection Hd as Htr Hac.
  all: unfold trail_part; cbn; by rewrite Htr, Hac.
Qed.

Lemma on_connect_preserves_trail L reason_code :
  preserves trail_part (_on_connect L reason_code).
Proof.
  assert (Hsend : ∀ cmd p, preserves trail_part
            (send_command L cmd (Some p) false 5%float "" [])).
  { intros cmd p st. destruct (session_up st) eqn:Hup;
      [|by rewrite send_command_down].
    destruct (send_command L cmd (Some p) false 5%float "" [] st)
      as [st' r] eqn:Hrun.
    cbn [fst]. revert Hrun. enter_send Hup. cbn.
    destruct (publish_outcome st (length (outbox st))) as [rc|f]; cbn;
      [destruct (negb (rc =? 0)); cbn|]; by intros [= <- <-]. }
  assert (Heach : ∀ cmds, preserves trail_part (request_each L cmds)).
  { induction cmds as [|cmd rest IH]; simpl; [done|].
    repeat first [ apply Hsend | frame_step ]; done. }
  unfold _on_connect, _request_initial_state, _confirm_robot_ip,
    _start_refresh_thread.
  repeat first [ apply Heach | apply Hsend | frame_step ].
Qed.

Lemma on_disconnect_preserves_trail t reason_code :
  preserves trail_part (_on_disconnect t reason_code).
Proof. unfold _on_disconnect, _try_rediscovery. frame. Qed.

(** Whatever is done to a client whose trail is inactive, the trail stays
    as it is unless the operation is [clear_trail] or handles a message that
    reports a job in progress. *)
Lemma perform_keeps_trail L op st :
  _trail_active st = false →
  is_clear op = false → restarts L op = false →
  trail_part (perform L st op) = trail_part st.
Proof.
  intros Hact Hclear Hrestart. destruct op; simpl in *; try done.
  - by apply on_message_keeps_trail.
  - apply on_connect_preserves_trail.
  - apply on_disconnect_preserves_trail.
  - by apply send_command_keeps_trail.
Qed.

Lemma position_sample_none t d p sm :
  default (PStr "") (d !! "topic") = PStr "get_device_msg" →
  default (PDict d) (d !! "data") = PDict p →
  default (PDict ∅) (p !! "StateMSG") = PDict sm →
  truthy (default (PInt 0) (sm !! "on_going_planning")) = true →
  position_sample t (PDict d) = None →
  ∀ od x y, default (PDict ∅) (p !! "CombinedOdom") = PDict od →
    od !! "x" = Some x → od !! "y" = Some y →
    is_none x || is_none y = true.
Proof.
  intros Ht Hp Hsm Hf Hnone od x y Hod Hx Hy.
  unfold position_sample, job_flag in Hnone.
  rewrite Ht in Hnone. cbn in Hnone.
  rewrite Hp, Hsm, Hf, Hod, Hx, Hy in Hnone.
  by destruct (is_none x || is_none y).
Qed.

(** C6, as amended.  A frame whose job-active flag is set, met with the
    trail inactive, activates the trail and drops what it held (leaving the
    sample of that frame, if it has one); a frame whose flag is clear, met
    with the trail active, deactivates the trail and keeps every point;
    from then on every operation keeps the inactive trail as it is, except
    [clear_trail] and the handling of a message that reports a job in
    progress; and [clear_trail] empties the trail. *)
Theorem trail_lifecycle (L : pylib) (st : state) :
  (∀ t data, _trail_active st = false → job_flag data = Some true →
     _max_trail_points st = 2000 →
     trail_part (_handle_data_feedback L t data st).1 =
       (match position_sample t data with Some s => [s] | None => [] end,
        true)) ∧
  (∀ t data, _trail_active st = true → job_flag data = Some false →
     trail_part (_handle_data_feedback L t data st).1 = (_trail st, false)) ∧
  (∀ ops, _trail_active st = false →
     Forall (λ op, is_clear op = false ∧ restarts L op = false) ops →
     trail_part (foldl (perform L) st ops) = trail_part st) ∧
  trail_part (perform L st ClearTrail) = ([], _trail_active st).
Proof.
  split; [|split; [|split]].
  - intros t data Hact Hjob Hmax.
    destruct (position_sample t data) as [s|] eqn:Hs.
    + rewrite (feedback_sample L t data s) by (done || lia).
      rewrite Hact, Hmax. done.
    + apply job_flag_inv in Hjob as (d & p & sm & -> & Ht & Hp & Hsm & Hf).
      rewrite (feedback_device_msg L t d p) by done.
      rewrite (record_trail_no_sample t p sm) by
        eauto using position_sample_none.
      cbn. by rewrite Hact.
  - intros t data Hact Hjob.
    apply job_flag_inv in Hjob as (d & p & sm & -> & Ht & Hp & Hsm & Hf).
    rewrite (feedback_device_msg L t d p) by done.
    by rewrite (record_trail_idle t p sm).
  - intros ops. revert st.
    induction ops as [|op rest IH]; intros st Hact Hall; [done|].
    apply Forall_cons in Hall as [[Hclear Hrestart] Hrest].
    pose proof (perform_keeps_trail L op st Hact Hclear Hrestart) as Hstep.
    simpl. rewrite IH, Hstep; [done| |done].
    unfold trail_part in Hstep. injection Hstep as _ ->. done.
  - done.
Qed.

(** C6 as stated: the points kept at the end of a job do not stay until
    [clear_trail] is called.  The five points of [example_running] survive
    the frame that ends the job and are dropped by the next frame that
    reports a job in progress. *)
Lemma retained_trail_lost_on_restart :
  ¬ (∀ (L : pylib) (st : state) (t : instant) (stop : pyval)
       (later : list (instant * pyval)),
       _trail_active st = true → job_flag stop = Some false →
       _trail (feed L later (_handle_data_feedback L t stop st).1)
       = _trail st).
Proof.
  intros Hkept.
  specialize (Hkept example_lib example_running noon (device_frame 0 None)
                [(noon, device_frame 1 None)] eq_refl eq_refl).
  vm_compute in Hkept. discriminate Hkept.
Qed.

(** The end of a job with five points recorded: the five points stay, and
    [clear_trail] then removes them. *)
Example job_end_keeps_five_points :
  let st := feed example_lib [(noon, device_frame 0 None)] example_running in
  length (_trail example_running) = 5%nat ∧
  _trail st = _trail example_running ∧ _trail_active st = false ∧
  _trail (clear_trail st).1 = [].
Proof. vm_compute. done. Qed.

(** * Further properties *)

(** ** Discovery *)

Section discovery_runs.
Import Discovery.
Local Open Scope io_scope.
Local Arguments _scan_subnet : simpl never.

Lemma probed_only_refl avoid e : probed_only avoid e e.
Proof.
  repeat split. exists []. by rewrite app_nil_r.
Qed.

Lemma probed_only_trans avoid e1 e2 e3 :
  probed_only avoid e1 e2 → probed_only avoid e2 e3 → probed_only avoid e1 e3.
Proof.
  intros (Hs1 & Hc1 & cs1 & Hl1 & Hf1) (Hs2 & Hc2 & cs2 & Hl2 & Hf2).
  split; [congruence|]. split; [congruence|].
  exists (cs1 ++ cs2). rewrite Hl2, Hl1, app_assoc. split; [done|].
  by apply Forall_app.
Qed.

Lemma reachable_same avoid e e' :
  probed_only avoid e e' → reachable e' = reachable e.
Proof. intros [Hs _]. unfold surroundings in Hs. congruence. Qed.

Lemma probe_port_run ip port timeout e :
  _probe_port ip port timeout e =
  (mkEnv (reachable e) (probe_error e) (cache_file e) (disk_readable e)
         (disk_writable e) (truncating e) (local_subnet e) (network_hosts e)
         (calls e ++ [CProbe ip port]),
   if reachable e ip port then Ok true
   else match probe_error e ip port with
        | Some ex => Raise ex
        | None => Ok false
        end).
Proof. reflexivity. Qed.

(** A probe thread adds its host to the results only when the host
    answers, and skips the excluded host without probing it. *)
Lemma check_run port exclude_ip results ip_str e :
  let run := _check port exclude_ip results ip_str e in
  probed_only exclude_ip e run.1 ∧
  (run.2 = results ∨
   (run.2 = results ++ [ip_str] ∧ reachable e ip_str port = true ∧
    Some ip_str ≠ exclude_ip)).
Proof.
  unfold _check. destruct (bool_decide_reflect (Some ip_str = exclude_ip)).
  - split; [apply probed_only_refl|by left].
  - unfold io_bind. rewrite probe_port_run. cbn.
    split.
    + repeat split. exists [CProbe ip_str port]. split; [done|].
      apply Forall_singleton. eauto.
    + destruct (reachable e ip_str port); [by right|left].
      by destruct (probe_error e ip_str port).
Qed.

Lemma join_threads_run port exclude_ip threads results e :
  answered e port exclude_ip results →
  let run := join_threads port exclude_ip threads results e in
  probed_only exclude_ip e run.1 ∧ answered e port exclude_ip run.2.
Proof.
  revert results e.
  induction threads as [|ip_str rest IH]; intros results e Hres; cbn zeta.
  - split; [apply probed_only_refl|done].
  - simpl. unfold io_bind.
    pose proof (check_run port exclude_ip results ip_str e) as [Hp Hr].
    destruct (_check port exclude_ip results ip_str e) as [e1 results1].
    simpl in *.
    assert (answered e port exclude_ip results1) as Hres1.
    { destruct Hr as [->|(-> & Hup & Hne)]; [done|].
      apply Forall_app. split; [done|]. by apply Forall_singleton. }
    assert (answered e1 port exclude_ip results1) as Hres1'.
    { unfold answered. by rewrite (reachable_same _ _ _ Hp). }
    destruct (IH results1 e1 Hres1') as [Hp2 Hr2].
    split; [by eapply probed_only_trans|].
    unfold answered in *. by rewrite <- (reachable_same _ _ _ Hp).
Qed.

Lemma scan_loop_run port exclude_ip hosts threads results e :
  answered e port exclude_ip results →
  let run := scan_loop port exclude_ip hosts threads results e in
  probed_only exclude_ip e run.1 ∧ answered e port exclude_ip run.2.
Proof.
  revert threads results e.
  induction hosts as [|ip_str rest IH]; intros threads results e Hres;
    cbn zeta.
  - by apply join_threads_run.
  - simpl. destruct (bool_decide _).
    + unfold io_bind.
      pose proof (join_threads_run port exclude_ip (threads ++ [ip_str])
                    results e Hres) as [Hp Hr].
      destruct (join_threads port exclude_ip (threads ++ [ip_str]) results e)
        as [e1 results1]. simpl in *.
      destruct results1 as [|r rs]; [|done].
      assert (answered e1 port exclude_ip []) as Hnil by constructor.
      destruct (IH [] [] e1 Hnil) as [Hp2 Hr2].
      split; [by eapply probed_only_trans|].
      unfold answered in *. by rewrite <- (reachable_same _ _ _ Hp).
    + destruct results as [|r rs]; [by apply IH|].
      by apply join_threads_run.
Qed.

(** What a subnet scan does: it logs itself, probes, and returns a host
    that answered, never the excluded one. *)
Lemma scan_subnet_run subnet port exclude_ip e :
  let run := _scan_subnet subnet port exclude_ip e in
  surroundings run.1 = surroundings e ∧
  cache_file run.1 = cache_file e ∧
  (∃ cs, calls run.1 = calls e ++ CScan subnet port :: cs ∧
     Forall (λ c, ∃ ip p, c = CProbe ip p ∧ Some ip ≠ exclude_ip) cs) ∧
  (∀ ip, run.2 = Some ip →
     reachable e ip port = true ∧ Some ip ≠ exclude_ip).
Proof.
  cbn zeta. unfold _scan_subnet, io_bind, record, ask. simpl.
  set (e0 := mkEnv _ _ _ _ _ _ _ _ _).
  destruct (network_hosts e subnet) as [hosts|]; simpl.
  - assert (answered e0 port exclude_ip []) as Hnil by constructor.
    pose proof (scan_loop_run port exclude_ip hosts [] [] e0 Hnil)
      as [(Hs & Hc & cs & Hl & Hf) Hr].
    destruct (scan_loop port exclude_ip hosts [] [] e0) as [e1 results].
    simpl in *. split; [done|]. split; [done|]. split.
    + exists cs. rewrite Hl. by rewrite <- app_assoc.
    + intros ip Hip. destruct results as [|r rs]; [done|].
      injection Hip as ->. by apply Forall_cons in Hr as [Hr _].
  - repeat split; try done. exists []. by split.
Qed.


Lemma nonempty_spec (s : string) : negb (s =? "")%string = true → s ≠ "".
Proof. by intros H ->. Qed.

Lemma quiet_record c e : is_save c = false → quiet e (record c e).1.
Proof.
  intros Hc. repeat split. exists [c]. split; [done|]. by apply Forall_singleton.
Qed.

Lemma summary_quiet e e1 port run :
  quiet e e1 → run_summary e1 port run → run_summary e port run.
Proof.
  intros (Hs & Hc & cs & Hl & Hf)
    (Hs1 & Hup & Hex & Hfile & cs1 & Hl1 & Hsave).
  assert (reachable e1 = reachable e ∧ disk_writable e1 = disk_writable e ∧
          truncating e1 = truncating e ∧ probe_error e1 = probe_error e)
    as (Hr & Hw & Ht & He)
    by (unfold surroundings in Hs; repeat split; congruence).
  split; [congruence|]. split; [by rewrite <- Hr|].
  split; [by rewrite <- Hr, <- He|].
  split; [rewrite <- Hc, <- Hw, <- Ht; done|].
  exists (cs ++ cs1). rewrite Hl1, Hl, app_assoc. split; [done|].
  intros v [Hv|Hv]%elem_of_app; [|by apply Hsave].
  by apply (proj1 (Forall_forall _ _) Hf) in Hv.
Qed.

Lemma summary_none e port : run_summary e port (e, Ok None).
Proof.
  split; [done|]. split; [done|]. split; [done|]. split; [by left|].
  exists []. rewrite app_nil_r. split; [done|].
  by intros v Hv%elem_of_nil.
Qed.

Lemma summary_raise e port ex ip :
  probe_error e ip port = Some ex → reachable e ip port = false →
  run_summary e port (e, Raise ex).
Proof.
  intros Hex Hdown.
  split; [done|]. split; [done|].
  split; [intros ? [= <-]; by exists ip|]. split; [by left|].
  exists []. rewrite app_nil_r. split; [done|].
  by intros v Hv%elem_of_nil.
Qed.

Lemma summary_found e port ip :
  ip ≠ "" → reachable e ip port = true → run_summary e port (e, Ok (Some ip)).
Proof.
  intros Hne Hup. split; [done|]. split; [by intros ? [= <-]|].
  split; [done|]. split; [by left|].
  exists []. rewrite app_nil_r. split; [done|].
  by intros v Hv%elem_of_nil.
Qed.

Lemma summary_saved e port ip :
  ip ≠ "" → reachable e ip port = true →
  run_summary e port ((save_cached_ip (PStr ip) e).1, Ok (Some ip)).
Proof.
  intros Hne Hup.
  unfold save_cached_ip, io_bind, record, ask, write_cache, io_ret. cbn.
  destruct (disk_writable e) eqn:Hw; [|destruct (truncating e ip) eqn:Ht]; cbn.
  all: split; [unfold surroundings; cbn; congruence|].
  all: split; [by intros ? [= <-]|].
  all: split; [done|].
  all: split;
    [first [by left | right; exists ip; split; [done|]; by rewrite Hw]|].
  all: exists [CSaveCache (PStr ip)]; split; [done|].
  all: intros v [= ->]%list_elem_of_singleton; eauto.
Qed.

Lemma quiet_refl e : quiet e e.
Proof. repeat split. exists []. by rewrite app_nil_r. Qed.

Lemma summary_bind {A} (m : Io A) (k : A → Io (pyres (option string)))
    e port :
  quiet e (m e).1 →
  run_summary (m e).1 port (k (m e).2 (m e).1) →
  run_summary e port (io_bind m k e).
Proof.
  unfold io_bind. destruct (m e) as [e1 a]. apply summary_quiet.
Qed.

Lemma summary_bind_ok {A} (m : Io (pyres A))
    (k : A → Io (pyres (option string))) e port :
  quiet e (m e).1 →
  (∀ ex, (m e).2 = Raise ex →
     ∃ ip, probe_error e ip port = Some ex ∧ reachable e ip port = false) →
  (∀ a, (m e).2 = Ok a → run_summary (m e).1 port (k a (m e).1)) →
  run_summary e port (io_bind_ok m k e).
Proof.
  unfold io_bind_ok. destruct (m e) as [e1 [a|ex]]; cbn; intros Hq Hex Hk.
  - eapply summary_quiet; [exact Hq|]. by apply Hk.
  - destruct (Hex ex eq_refl) as (ip & Hip & Hdown).
    assert (reachable e1 = reachable e ∧ probe_error e1 = probe_error e)
      as [Hr He]
      by (destruct Hq as [Hs _]; unfold surroundings in Hs; split; congruence).
    eapply summary_quiet; [exact Hq|].
    apply (summary_raise e1 port ex ip); by rewrite ?Hr, ?He.
Qed.

Lemma probe_raise ip port timeout e ex :
  (_probe_port ip port timeout e).2 = Raise ex →
  probe_error e ip port = Some ex ∧ reachable e ip port = false.
Proof.
  cbn. destruct (reachable e ip port); [done|].
  destruct (probe_error e ip port); [|done]. by intros [= ->].
Qed.

Lemma probe_hit ip port timeout e :
  (_probe_port ip port timeout e).2 = Ok true → reachable e ip port = true.
Proof.
  cbn. destruct (reachable e ip port); [done|].
  by destruct (probe_error e ip port).
Qed.

Lemma quiet_probe ip port timeout e : quiet e (_probe_port ip port timeout e).1.
Proof. by apply (quiet_record (CProbe ip port)). Qed.

Lemma quiet_load e : quiet e (load_cached_ip e).1.
Proof. by apply (quiet_record CLoadCache). Qed.

Lemma quiet_local_subnet e : quiet e (_get_local_subnet e).1.
Proof. by apply (quiet_record CLocalSubnet). Qed.

Lemma quiet_scan subnet port exclude_ip e :
  quiet e (_scan_subnet subnet port exclude_ip e).1.
Proof.
  destruct (scan_subnet_run subnet port exclude_ip e)
    as (Hs & Hc & (cs & Hl & Hf) & _).
  split; [done|]. split; [done|].
  exists (CScan subnet port :: cs). split; [done|].
  constructor; [done|].
  eapply Forall_impl; [exact Hf|]. by intros c (ip & p & -> & _).
Qed.

Lemma load_cached_ip_nonempty e ip : (load_cached_ip e).2 = Some ip → ip ≠ "".
Proof.
  cbn. destruct (disk_readable e); [|done].
  destruct (cache_file e) as [text|]; [|done].
  destruct (String.eqb_spec (strip (universal_newlines text)) ""); cbn;
    [done|]. by intros [= <-].
Qed.

Lemma discover_robot_run (e : env) (configured_ip : string) (port : Z)
    (subnet : option string) :
  run_summary e port (discover_robot configured_ip port subnet e).
Proof.
  unfold discover_robot.
  set (tail := io_bind load_cached_ip _).
  assert (Htail : ∀ e1, run_summary e1 port (tail e1)).
  { intros e1. subst tail.
    apply summary_bind; [apply quiet_load|].
    pose proof (load_cached_ip_nonempty e1) as Hcached.
    destruct (load_cached_ip e1) as [e2 cached]. cbn [fst snd] in *.
    set (scan := io_bind (match subnet with Some _ => _ | None => _ end) _).
    assert (Hscan : ∀ e3, run_summary e3 port (scan e3)).
    { intros e3. subst scan. apply summary_bind.
      { destruct subnet as [s|]; [destruct (negb _)|];
          first [apply quiet_local_subnet|apply quiet_refl]. }
      match goal with |- run_summary ?e4 _ (match ?x with _ => _ end _) =>
        generalize e4; destruct x as [s|] end; intros e4;
        [|apply summary_none].
      destruct (String.eqb_spec s "") as [->|Hs]; [apply summary_none|].
      apply summary_bind; [apply quiet_scan|].
      destruct (scan_subnet_run s port None e4) as (Hsur & _ & _ & Hfound).
      destruct (_scan_subnet s port None e4) as [e5 [ip|]]; cbn [fst snd] in *;
        [|apply summary_none].
      destruct (Hfound ip eq_refl) as [Hup _].
      destruct (negb (ip =? "")%string) eqn:Hip; [|apply summary_none].
      assert (reachable e5 ip port = true) as Hup5.
      { unfold surroundings in Hsur. by replace (reachable e5) with (reachable e4) by congruence. }
      pose proof (summary_saved e5 port ip (nonempty_spec _ Hip) Hup5).
      unfold io_bind. by destruct (save_cached_ip (PStr ip) e5). }
    match goal with |- run_summary _ _ (io_bind_ok ?m _ _) =>
      assert (quiet e2 (m e2).1 ∧
              ((m e2).2 = Ok true →
               ∃ ip, cached = Some ip ∧ reachable e2 ip port = true))
        as [Hq Hhit]
    end.
    { destruct cached as [ip|]; [|split; [apply quiet_refl|done]].
      destruct (_ && _); [|split; [apply quiet_refl|done]].
      split; [apply quiet_probe|]. intros Hup%probe_hit. eauto. }
    apply summary_bind_ok; [done| |].
    { destruct cached as [ip|]; [|done].
      destruct (_ && _); [|done].
      intros ex Hex%probe_raise. by exists ip. }
    match goal with |- ∀ a, _ → run_summary ?e3 _ _ =>
      generalize dependent e3 end.
    intros e3 Hq3 [|] Hres; [|auto].
    destruct (Hhit Hres) as (ip & -> & Hup).
    apply summary_found; [by apply Hcached|].
    destruct Hq3 as [Hsur _]. unfold surroundings in Hsur.
    by replace (reachable e3) with (reachable e2) by congruence.
  }
  apply summary_bind_ok.
  { destruct (negb _); [apply quiet_probe|apply quiet_refl]. }
  { destruct (negb _); [|done].
    intros ex Hex%probe_raise. by exists configured_ip. }
  intros [|] Hres; [|apply Htail].
  destruct (negb (configured_ip =? "")%string) eqn:Hcfg; [|done].
  apply probe_hit in Hres as Hup.
  assert (reachable (_probe_port configured_ip port _PROBE_TIMEOUT e).1
            configured_ip port = true) as Hup1 by done.
  pose proof (summary_saved _ port configured_ip (nonempty_spec _ Hcfg) Hup1)
    as Hsaved.
  unfold io_bind at 1.
  by destruct (save_cached_ip (PStr configured_ip) _).
Qed.

Lemma join_threads_finds port exclude_ip threads results e :
  results ≠ [] ∨ candidate e port exclude_ip threads →
  (join_threads port exclude_ip threads results e).2 ≠ [].
Proof.
  revert results e.
  induction threads as [|ip_str rest IH]; intros results e Hsome.
  - destruct Hsome as [H|(ip & []%elem_of_nil & _)]. done.
  - simpl. unfold io_bind.
    destruct (check_run port exclude_ip results ip_str e) as [Hp _].
    pose proof (reachable_same _ _ _ Hp) as Hsame.
    unfold _check in *.
    destruct (bool_decide_reflect (Some ip_str = exclude_ip)) as [Hex|Hex].
    + apply IH. destruct Hsome as [H|(ip & [->|Hin]%elem_of_cons & Hup & Hne)];
        [by left|done|right; by exists ip].
    + unfold io_bind in *. rewrite probe_port_run in *. cbn [fst snd] in *.
      unfold io_ret. apply IH.
      destruct Hsome as [H|(ip & [->|Hin]%elem_of_cons & Hup & Hne)].
      * left. destruct (reachable e ip_str port); [by destruct results|].
        by destruct (probe_error e ip_str port).
      * left. rewrite Hup. by destruct results.
      * right. by exists ip.
Qed.

Lemma join_threads_reachable port exclude_ip threads results e :
  reachable (join_threads port exclude_ip threads results e).1 = reachable e.
Proof.
  revert results e. induction threads as [|ip_str rest IH]; intros results e.
  - done.
  - simpl. unfold io_bind.
    destruct (check_run port exclude_ip results ip_str e) as [Hp _].
    destruct (_check port exclude_ip results ip_str e) as [e1 results1].
    rewrite IH. apply (reachable_same _ _ _ Hp).
Qed.

Lemma scan_loop_finds port exclude_ip hosts threads results e :
  results ≠ [] ∨ candidate e port exclude_ip (hosts ++ threads) →
  (scan_loop port exclude_ip hosts threads results e).2 ≠ [].
Proof.
  revert threads results e.
  induction hosts as [|ip_str rest IH]; intros threads results e Hsome.
  - by apply join_threads_finds.
  - simpl. destruct (bool_decide _).
    + unfold io_bind.
      pose proof (join_threads_finds port exclude_ip (threads ++ [ip_str])
                    results e) as Hfinds.
      pose proof (join_threads_reachable port exclude_ip (threads ++ [ip_str])
                    results e) as Hsame.
      destruct (join_threads port exclude_ip (threads ++ [ip_str]) results e)
        as [e1 results1]. cbn [fst snd] in *.
      destruct results1 as [|r rs]; [|done].
      assert (¬ (results ≠ [] ∨
                 candidate e port exclude_ip (threads ++ [ip_str]))) as Hnone
        by (intros H; by apply Hfinds in H).
      apply IH. right.
      destruct Hsome as [H|(ip & Hin & Hup & Hne)]; [by destruct Hnone; left|].
      exists ip. rewrite Hsame. split; [|done].
      rewrite app_nil_r.
      apply elem_of_app in Hin as [[Heq|Hin]%elem_of_cons|Hin]; [| done |].
      all: destruct Hnone; right; exists ip; split; [|done].
      all: apply elem_of_app; first [by left|right; by apply list_elem_of_singleton].
    + destruct results as [|r rs]; [|by apply join_threads_finds; left].
      apply IH. destruct Hsome as [H|(ip & Hin & Hup & Hne)]; [done|].
      right. exists ip. split; [|done].
      rewrite !elem_of_app, elem_of_cons in Hin.
      rewrite !elem_of_app, list_elem_of_singleton. tauto.
Qed.




Lemma scan_subnet_complete subnet port exclude_ip hosts e :
  network_hosts e subnet = Some hosts →
  candidate e port exclude_ip hosts →
  (_scan_subnet subnet port exclude_ip e).2 ≠ None.
Proof.
  intros Hhosts Hcand.
  unfold _scan_subnet, io_bind, record, ask, io_ret. cbn. rewrite Hhosts.
  set (e0 := mkEnv _ _ _ _ _ _ _ _ _).
  pose proof (scan_loop_finds port exclude_ip hosts [] [] e0) as Hfinds.
  destruct (scan_loop port exclude_ip hosts [] [] e0) as [e2 [|r rs]];
    [|done].
  destruct Hfinds; [|done]. right. by rewrite app_nil_r.
Qed.





(** X1.  Whatever address [discover_robot] returns is a non-empty string
    whose host completed the TLS probe on the requested port: neither the
    configured address, nor the cached one, nor a scan result is returned
    unprobed or on the strength of an earlier run. *)
Theorem discover_robot_answered (e : env) (configured_ip : string) (port : Z)
    (subnet : option string) (ip : string) :
  (discover_robot configured_ip port subnet e).2 = Ok (Some ip) →
  ip ≠ "" ∧ reachable e ip port = true.
Proof.
  intros Hrun.
  destruct (discover_robot_run e configured_ip port subnet) as (_ & Hup & _).
  by apply Hup.
Qed.

Lemma discover_robot_answered_witness :
  (discover_robot "192.168.68.50" 8883 None example_env).2
    = Ok (Some "192.168.68.102") ∧
  "192.168.68.102" ≠ "" ∧
  reachable example_env "192.168.68.102" 8883 = true.
Proof.
  split; [reflexivity|].
  exact (discover_robot_answered example_env "192.168.68.50" 8883 None
           "192.168.68.102" eq_refl).
Defined.

(** X2.  The cache file after a run of [discover_robot]: it is untouched,
    or the run returned an address and the file holds exactly that address
    (the disk accepted the write) or has been emptied by the failed write
    of that address; every [save_cached_ip] of the run is for the returned
    address, so a run that finds nothing, or that raises, saves nothing
    and leaves a stale cache file as it was.  The network and the disk
    permissions are never changed. *)
Theorem discover_robot_cache_file (e : env) (configured_ip : string)
    (port : Z) (subnet : option string) :
  let run := discover_robot configured_ip port subnet e in
  surroundings run.1 = surroundings e ∧
  (cache_file run.1 = cache_file e ∨
   (disk_writable e = true ∧
    ∃ ip, run.2 = Ok (Some ip) ∧ cache_file run.1 = Some ip) ∨
   (disk_writable e = false ∧
    ∃ ip, run.2 = Ok (Some ip) ∧ truncating e ip = true ∧
          cache_file run.1 = Some "")) ∧
  (∀ v, CSaveCache v ∈ calls_since e run.1 →
     ∃ ip, v = PStr ip ∧ run.2 = Ok (Some ip)) ∧
  ((∀ ip, run.2 ≠ Ok (Some ip)) → cache_file run.1 = cache_file e).
Proof.
  cbn zeta.
  destruct (discover_robot_run e configured_ip port subnet)
    as (Hs & _ & _ & Hfile & cs & Hl & Hsave).
  split; [done|]. split; [|split].
  - destruct Hfile as [H|(ip & Hip & H)]; [by left|right].
    destruct (disk_writable e); [left|right]; split; [done| |done|];
      exists ip; [done|]. by destruct H.
  - unfold calls_since. rewrite Hl, calls_since_app. exact Hsave.
  - intros Hnone. destruct Hfile as [H|(ip & Hip & _)]; [done|].
    by destruct (Hnone ip).
Qed.

(** X3.  Fallback to the cached address: when the configured address is
    absent or its probe fails without raising, and the cache file holds
    (after the translation of newlines and the stripping of white space)
    a non-empty address different from the configured one that answers
    the probe, [discover_robot] returns that address.  The calls made are
    the failed probe, if any, the cache read and the probe of the cached
    address: there is no scan and no save, and the cache file is not
    rewritten. *)
Theorem discover_cached_fallback (e : env) (configured_ip text : string)
    (port : Z) (subnet : option string) :
  let cached := strip (universal_newlines text) in
  configured_ip = "" ∨
    (reachable e configured_ip port = false ∧
     probe_error e configured_ip port = None) →
  disk_readable e = true →
  cache_file e = Some text →
  cached ≠ "" →
  cached ≠ configured_ip →
  reachable e cached port = true →
  let run := discover_robot configured_ip port subnet e in
  run.2 = Ok (Some cached) ∧
  cache_file run.1 = Some text ∧
  calls_since e run.1 =
    (if String.eqb configured_ip "" then []
     else [CProbe configured_ip port])
    ++ [CLoadCache; CProbe cached port].
Proof.
  cbn zeta. intros Hcfg Hread Hfile Hne Hdiff Hup.
  unfold discover_robot, calls_since, io_bind_ok.
  apply String.eqb_neq in Hne, Hdiff.
  destruct (String.eqb_spec configured_ip "") as [->|Hc].
  - repeat (cbn; rewrite ?Hread, ?Hfile, ?Hne, ?Hdiff, ?Hup).
    by rewrite <- app_assoc, calls_since_app.
  - destruct Hcfg as [?|[Hdown Hquiet]]; [done|].
    repeat (cbn; rewrite ?Hdown, ?Hquiet, ?Hread, ?Hfile, ?Hne, ?Hdiff, ?Hup).
    by rewrite <- !app_assoc, calls_since_app.
Qed.

Lemma discover_cached_fallback_witness :
  let e := mkEnv (λ ip port, String.eqb ip "192.168.68.77" && (port =? 8883))
             (λ _ _, None) (Some " 192.168.68.77 ") true true (λ _, false)
             None (λ _, None) [] in
  let run := discover_robot "192.168.68.50" 8883 None e in
  run.2 = Ok (Some "192.168.68.77") ∧
  cache_file run.1 = Some " 192.168.68.77 " ∧
  calls_since e run.1 =
    [CProbe "192.168.68.50" 8883; CLoadCache; CProbe "192.168.68.77" 8883].
Proof.
  cbn zeta.
  refine (discover_cached_fallback
            (mkEnv (λ ip port, String.eqb ip "192.168.68.77" && (port =? 8883))
               (λ _ _, None) (Some " 192.168.68.77 ") true true (λ _, false)
               None (λ _, None) [])
            "192.168.68.50" " 192.168.68.77 " 8883 None
            (or_intror (conj eq_refl eq_refl)) eq_refl eq_refl _ _ eq_refl).
  all: vm_compute; discriminate.
Defined.

(** X4.  A subnet scan never touches the excluded host: [_scan_subnet]
    makes no probe of [exclude_ip] on any port and never returns it; every
    call the scan makes is a probe, and a host it returns answered on the
    scanned port. *)
Theorem scan_subnet_excludes (e : env) (subnet : string) (port : Z)
    (exclude_ip : option string) :
  let run := _scan_subnet subnet port exclude_ip e in
  (∀ c, c ∈ calls_since e run.1 →
     c = CScan subnet port ∨
     ∃ ip p, c = CProbe ip p ∧ Some ip ≠ exclude_ip) ∧
  (∀ ip, run.2 = Some ip →
     Some ip ≠ exclude_ip ∧ reachable e ip port = true) ∧
  cache_file run.1 = cache_file e.
Proof.
  cbn zeta.
  destruct (scan_subnet_run subnet port exclude_ip e)
    as (_ & Hfile & (cs & Hl & Hf) & Hfound).
  split; [|split; [|done]].
  - unfold calls_since. rewrite Hl, calls_since_app.
    intros c [->|Hc]%elem_of_cons; [by left|right].
    by apply (proj1 (Forall_forall _ _) Hf).
  - intros ip Hip. by destruct (Hfound ip Hip).
Qed.

(** X5.  A scan finds a broker whenever there is one: if the subnet parses
    and one of its hosts other than [exclude_ip] answers on the port,
    [_scan_subnet] returns an address, however many hosts the subnet has
    and wherever in the batches of 50 the answering host falls. *)
Theorem scan_subnet_finds (e : env) (subnet : string) (port : Z)
    (exclude_ip : option string) (hosts : list string) (ip : string) :
  network_hosts e subnet = Some hosts →
  ip ∈ hosts →
  reachable e ip port = true →
  Some ip ≠ exclude_ip →
  ∃ found, (_scan_subnet subnet port exclude_ip e).2 = Some found ∧
           reachable e found port = true ∧ Some found ≠ exclude_ip.
Proof.
  intros Hhosts Hin Hup Hne.
  destruct (scan_subnet_run subnet port exclude_ip e) as (_ & _ & _ & Hfound).
  pose proof (scan_subnet_complete subnet port exclude_ip hosts e Hhosts)
    as Hsome.
  destruct (_scan_subnet subnet port exclude_ip e) as [e1 [found|]].
  - exists found. split; [done|]. by apply Hfound.
  - destruct Hsome; [|done]. by exists ip.
Qed.

Lemma scan_subnet_finds_witness :
  ∃ found,
    (_scan_subnet "192.168.68.0/24" 8883 (Some "192.168.68.1") example_env).2
      = Some found ∧
    reachable example_env found 8883 = true ∧
    Some found ≠ Some "192.168.68.1".
Proof.
  refine (scan_subnet_finds example_env "192.168.68.0/24" 8883
            (Some "192.168.68.1")
            ["192.168.68.1"; "192.168.68.102"; "192.168.68.105"]
            "192.168.68.102" eq_refl _ eq_refl _).
  - apply list_elem_of_In. simpl. tauto.
  - discriminate.
Defined.




(** X7.  Round trip through the cache file, on a platform that writes
    newlines as they are: what [load_cached_ip] returns after
    [save_cached_ip(ip)].  A string saved on a disk that takes the write
    reads back with CR LF and CR turned into LF and stripped of
    surrounding white space, and as no address at all when nothing but
    white space was saved (or the file cannot be read); a write that fails
    after the file was opened leaves an empty file, which reads back as
    no address; saving a value that is not a string, or a write refused
    before the file is opened, leaves what is read as it was before. *)
Theorem cache_round_trip (e : env) (v : pyval) :
  (load_cached_ip (save_cached_ip v e).1).2 =
    match v with
    | PStr ip =>
        let back := strip (universal_newlines ip) in
        if disk_writable e then
          if disk_readable e && negb (String.eqb back "")
          then Some back else None
        else if truncating e ip then None
        else (load_cached_ip e).2
    | _ => (load_cached_ip e).2
    end.
Proof.
  unfold save_cached_ip, load_cached_ip, io_bind, record, ask, write_cache,
    io_ret. cbn.
  destruct v; try done.
  destruct (disk_writable e); cbn.
  - destruct (disk_readable e); cbn; [|done]. by destruct (negb _).
  - destruct (truncating e s); cbn; [|done]. by destruct (disk_readable e).
Qed.
End discovery_runs.

Section keeping.
Context (P : state → Prop).

Lemma keeps_ret {A} (a : A) : keeps P (ret a).
Proof. by intros st. Qed.
Lemma keeps_raise {A} (e : exn) : keeps P (@raise A e).
Proof. by intros st. Qed.
Lemma keeps_lift {A} (r : pyres A) : keeps P (lift r).
Proof. by intros st. Qed.
Lemma keeps_get {A} (g : state → A) : keeps P (get g).
Proof. by intros st. Qed.
Lemma keeps_modify (g : state → state) :
  (∀ st, P st → P (g st)) → keeps P (modify g).
Proof. intros Hg st. apply Hg. Qed.

Lemma keeps_bind {A C} (m : Py A) (k : A → Py C) :
  keeps P m → (∀ a, keeps P (k a)) → keeps P (bind m k).
Proof.
  intros Hm Hk st HP. unfold bind. specialize (Hm st HP).
  destruct (m st) as [st1 [a|e]]; [by apply Hk|done].
Qed.

Lemma keeps_try_except {A} (m : Py A) (h : exn → Py A) :
  keeps P m → (∀ e, keeps P (h e)) → keeps P (try_except m h).
Proof.
  intros Hm Hh st HP. unfold try_except. specialize (Hm st HP).
  destruct (m st) as [st1 [a|e]]; [done|by apply Hh].
Qed.

Lemma keeps_new_dict :
  (∀ h st, P st → P (set_heap h st)) → keeps P new_dict.
Proof. intros Hh st. apply Hh. Qed.

Lemma keeps_publish topic payload :
  (∀ o st, P st → P (set_outbox o st)) → keeps P (publish topic payload).
Proof. intros Ho st. apply Ho. Qed.

Lemma keeps_on_disk {A} (m : Discovery.Io A) :
  (∀ d st, P st → P (set_disk d st)) → keeps P (on_disk m).
Proof. intros Hd st HP. unfold on_disk. destruct (m (disk st)). by apply Hd. Qed.

Lemma keeps_merge_items items :
  (∀ v st, P st → P (set__device_msg v st)) → keeps P (merge_items items).
Proof.
  intros Hset. induction items as [|[key value] rest IH]; simpl.
  - apply keeps_ret.
  - apply keeps_bind; [|by intros].
    unfold merge_item.
    repeat first
      [ apply keeps_bind; [|intros ?] | apply keeps_get | apply keeps_ret
      | apply keeps_raise | apply keeps_modify; intros ?; apply Hset
      | match goal with |- keeps _ (match ?x with _ => _ end) => destruct x end ].
Qed.

Lemma keeps_deliver L msgs :
  (∀ msg, msg ∈ msgs → keeps P (_on_message L msg)) →
  ∀ st, P st → P (deliver L msgs st).
Proof.
  unfold deliver. induction msgs as [|msg rest IH]; intros Hall st HP; [done|].
  simpl. apply IH.
  - intros m Hm. apply Hall. by right.
  - apply Hall; [by left|done].
Qed.

End keeping.
Ltac keeps_step side :=
  lazymatch goal with
  | |- keeps _ (bind _ _) => apply keeps_bind; [|intros ?]
  | |- keeps _ (ret _) => apply keeps_ret
  | |- keeps _ (raise _) => apply keeps_raise
  | |- keeps _ (lift _) => apply keeps_lift
  | |- keeps _ (get _) => apply keeps_get
  | |- keeps _ (modify _) => apply keeps_modify; intros ? ?; side
  | |- keeps _ (status_set _ _) => apply keeps_modify; intros ? ?; side
  | |- keeps _ (forget_event _) => apply keeps_modify; intros ? ?; side
  | |- keeps _ (try_except _ _) => apply keeps_try_except; [|intros ?]
  | |- keeps _ (on_disk _) => apply keeps_on_disk; intros ? ? ?; side
  | |- keeps _ new_dict => apply keeps_new_dict; intros ? ? ?; side
  | |- keeps _ (publish _ _) => apply keeps_publish; intros ? ? ?; side
  | |- keeps _ (merge_items _) => apply keeps_merge_items; intros ? ? ?; side
  | |- keeps _ (if ?b then _ else _) => destruct b
  | |- keeps _ (match ?x with _ => _ end) => destruct x
  end.

Lemma length_slice_from {A} (bound : Z) (l : list A) :
  0 < bound → bound < Z.of_nat (length l) →
  length (slice_from (- bound) l) = Z.to_nat bound.
Proof.
  intros Hpos Hlt. unfold slice_from.
  replace (- bound <? 0) with true by (symmetry; apply Z.ltb_lt; lia).
  rewrite length_drop. lia.
Qed.

Lemma trail_append_bounded (sample : pyval) :
  keeps bounded
    (modify (λ st, set__trail (_trail st ++ [sample]) st);;
     trail ← get _trail;
     bound ← get _max_trail_points;
     if bound <? Z.of_nat (length trail) then
       modify (set__trail (slice_from (- bound) trail))
     else ret tt).
Proof.
  intros st (Hmt & Hmc & Ht & Hc). cbn. rewrite Hmt.
  assert (length (_trail st ++ [sample]) = S (length (_trail st))) as Hlen
    by (rewrite length_app; simpl; lia).
  destruct (Z.ltb_spec 2000 (Z.of_nat (length (_trail st ++ [sample]))))
    as [Hlt|Hge]; cbn.
  - pose proof (length_slice_from 2000 (_trail st ++ [sample]) eq_refl Hlt).
    split; [done|]. split; [done|]. split; [|done].
    cbn [_trail set__trail]. lia.
  - split; [done|]. split; [done|]. split; [|done].
    cbn [_trail set__trail]. lia.
Qed.

Lemma history_append_bounded (entry : pyval) :
  keeps bounded
    (modify (λ st, set__control_commands (_control_commands st ++ [entry]) st);;
     commands ← get _control_commands;
     bound ← get _max_control_commands;
     if bound <? Z.of_nat (length commands) then
       modify (set__control_commands (slice_from (- bound) commands))
     else ret tt).
Proof.
  intros st (Hmt & Hmc & Ht & Hc). cbn. rewrite Hmc.
  assert (length (_control_commands st ++ [entry])
          = S (length (_control_commands st))) as Hlen
    by (rewrite length_app; simpl; lia).
  destruct (Z.ltb_spec 50 (Z.of_nat (length (_control_commands st ++ [entry]))))
    as [Hlt|Hge]; cbn.
  - pose proof (length_slice_from 50 (_control_commands st ++ [entry])
                  eq_refl Hlt).
    split; [done|]. split; [done|]. split; [done|].
    cbn [_control_commands set__control_commands]. lia.
  - split; [done|]. split; [done|]. split; [done|].
    cbn [_control_commands set__control_commands]. lia.
Qed.

Ltac bounded_side :=
  first [ assumption
        | match goal with H : bounded _ |- _ =>
            destruct H as (? & ? & ? & ?); repeat split; cbn; first [done|lia]
          end ].

Ltac bounded_step :=
  first [ apply trail_append_bounded | apply history_append_bounded
        | keeps_step bounded_side ].

Lemma on_message_bounded L msg : keeps bounded (_on_message L msg).
Proof.
  unfold_handlers. repeat bounded_step.
Qed.
Lemma send_command_bounded L command payload wait timeout uuid12 inflight :
  keeps bounded (send_command L command payload wait timeout uuid12 inflight).
Proof.
  unfold send_command.
  repeat first
    [ match goal with
      | |- keeps _ (modify (deliver _ _)) =>
          apply keeps_modify; apply keeps_deliver; intros ? _;
          apply on_message_bounded
      end
    | bounded_step ].
Qed.

Lemma request_each_bounded L cmds : keeps bounded (request_each L cmds).
Proof.
  induction cmds as [|cmd rest IH]; simpl.
  - apply keeps_ret.
  - repeat first [ apply send_command_bounded | apply IH | bounded_step ].
Qed.

Lemma on_connect_bounded L reason_code : keeps bounded (_on_connect L reason_code).
Proof.
  unfold _on_connect, _request_initial_state, _confirm_robot_ip,
    _start_refresh_thread.
  repeat first [ apply request_each_bounded | apply send_command_bounded
               | bounded_step ].
Qed.

Lemma on_disconnect_bounded t reason_code :
  keeps bounded (_on_disconnect t reason_code).
Proof. unfold _on_disconnect, _try_rediscovery. repeat bounded_step. Qed.

Lemma perform_bounded L st op : bounded st → bounded (perform L st op).
Proof.
  destruct op; simpl.
  - apply on_message_bounded.
  - apply on_connect_bounded.
  - apply on_disconnect_bounded.
  - apply send_command_bounded.
  - intros (? & ? & ? & ?). repeat split; try done. simpl. lia.
Qed.

Lemma run_bounded L ops st : bounded st → bounded (foldl (perform L) st ops).
Proof.
  revert st. induction ops as [|op rest IH]; intros st H; [done|].
  simpl. by apply IH, perform_bounded.
Qed.

(** X8.  The two histories stay within their bounds: whatever sequence of
    messages, connects, disconnects, commands and trail clearings a client
    goes through after [__init__], the breadcrumb trail never holds more
    than 2000 points and the control-command history never more than 50
    entries. *)
Theorem stores_bounded (L : pylib) (robot_ip serial : string) (port : Z)
    (use_tls : bool) (rcs : nat → outcome) (net : Discovery.env)
    (ops : list operation) :
  let st := foldl (perform L) (__init__ robot_ip serial port use_tls rcs net)
              ops in
  (length (_trail st) ≤ 2000)%nat ∧
  (length (_control_commands st) ≤ 50)%nat.
Proof.
  cbn zeta.
  assert (bounded (foldl (perform L)
            (__init__ robot_ip serial port use_tls rcs net) ops)) as H.
  { apply run_bounded. repeat split; simpl; lia. }
  by destruct H as (_ & _ & ? & ?).
Qed.
Lemma route_control_commands L tp t data :
  preserves _control_commands (route L tp t data).
Proof. frame_inbound. Qed.

Lemma last_keep_last {A} (n : nat) (l : list A) (x : A) :
  (0 < n)%nat → last (keep_last n (l ++ [x])) = Some x.
Proof.
  intros Hn. unfold keep_last. rewrite length_app. simpl.
  rewrite drop_app_le by lia.
  replace (length l + 1 - n)%nat with (length l - (n - 1))%nat by lia.
  destruct (decide (length l - (n - 1) = length l)%nat) as [Heq|Hne].
  - rewrite Heq, drop_all. done.
  - by rewrite last_snoc.
Qed.

Lemma track_history t tp data st :
  _max_control_commands st = 50 →
  _control_commands (_track_control_command t tp data st).1 =
    if is_control tp
    then keep_last 50 (_control_commands st ++ [history_entry t tp data])
    else _control_commands st.
Proof.
  intros Hmax. unfold _track_control_command, is_control.
  destruct (existsb _ control_topics); [|done].
  fold (history_entry t tp data). set (entry := history_entry t tp data).
  cbn -[slice_from]. rewrite Hmax.
  pose proof (trim_keep_last 50 (_control_commands st ++ [entry]) eq_refl)
    as Htrim.
  change (Z.to_nat 50) with 50%nat in Htrim. rewrite <- Htrim.
  by destruct (50 <? _).
Qed.

(** X9.  What the control-command history records.  A decodable message
    whose topic contains one of the ten control words is appended to the
    history, with the last segment of the topic as the command name, and
    the history is cut back to its newest 50 entries, so the entry just
    made is always the last one; a message on any other topic leaves the
    history as it is, whatever handler it is routed to. *)
Theorem control_command_recorded (L : pylib) (msg : inbound) (data : pyval)
    (st : state) :
  decoded L msg = Some data →
  _max_control_commands st = 50 →
  let st' := (_on_message L msg st).1 in
  let entry := history_entry (received msg) (msg_topic msg) data in
  if is_control (msg_topic msg) then
    _control_commands st' = keep_last 50 (_control_commands st ++ [entry]) ∧
    last (_control_commands st') = Some entry ∧
    (length (_control_commands st') ≤ 50)%nat
  else _control_commands st' = _control_commands st.
Proof.
  intros Hd Hmax. cbn zeta. rewrite on_message_run, Hd, dispatch_run.
  rewrite (route_control_commands L (msg_topic msg) (received msg) data
             (_track_control_command (received msg) (msg_topic msg) data st).1).
  rewrite (track_history (received msg) (msg_topic msg) data st Hmax).
  destruct (is_control (msg_topic msg)); [|done].
  split; [done|]. split; [by apply last_keep_last; lia|].
  rewrite length_keep_last. lia.
Qed.

Lemma control_command_recorded_witness :
  let msg := mkInbound "snowbot/SN001/app/stop" [x41] noon in
  let st' := (_on_message example_lib msg example_client).1 in
  last (_control_commands st') =
    Some (history_entry noon "snowbot/SN001/app/stop"
            (PDict {["working_state" := PInt 2]})) ∧
  (length (_control_commands st') ≤ 50)%nat.
Proof.
  cbn zeta.
  pose proof (control_command_recorded example_lib
                (mkInbound "snowbot/SN001/app/stop" [x41] noon)
                (PDict {["working_state" := PInt 2]}) example_client
                eq_refl eq_refl) as H.
  cbn zeta in H.
  change (is_control (msg_topic (mkInbound "snowbot/SN001/app/stop" [x41] noon)))
    with true in H.
  exact (proj2 H).
Defined.
Lemma on_message_returns L msg st : (_on_message L msg st).2 = Ok tt.
Proof.
  unfold _on_message, try_except.
  destruct (bind _ _ st) as [st1 [[]|e]]; done.
Qed.

(** X10.  A message from the broker is confined to the telemetry: the
    callback [_on_message] always returns, whatever the handlers raise, and
    it never changes the address, serial or port of the client, the paho
    client or the connected flag, the disconnect and rediscovery
    bookkeeping, the two bounds, the payload dicts of callers, the
    publications made or the subscriptions and threads; a payload that is
    not JSON changes nothing at all. *)
Theorem on_message_confined (L : pylib) (msg : inbound) (st : state) :
  let run := _on_message L msg st in
  run.2 = Ok tt ∧
  beyond_messages run.1 = beyond_messages st ∧
  (decoded L msg = None → run.1 = st).
Proof.
  cbn zeta. split; [apply on_message_returns|]. split.
  - as_frame beyond_messages. frame_inbound.
  - intros Hd. by rewrite on_message_run, Hd.
Qed.


















(** X12.  Fire and forget.  With [wait=False] on a session that is up,
    [send_command] makes exactly one attempt to publish, on
    [snowbot/<serial>/app/<command>] with the caller's payload as it is,
    and changes nothing else: the payload dict gets no [req_id], no event
    is registered, no response is consumed and messages that arrive
    meanwhile are not awaited.  It returns [None] when publish reports
    success, raises [RuntimeError] with the result code when publish
    reports another code, and raises what the serialisation of the
    payload or paho's [publish] raises when the attempt does not get as
    far as a result code. *)
Theorem fire_and_forget (L : pylib) (command : string) (p : nat) (d : pydict)
    (timeout : float) (uuid12 : string) (inflight : list inbound)
    (st : state) :
  session_up st = true →
  heap st !! p = Some d →
  let result := publish_outcome st (length (outbox st)) in
  let run := send_command L command (Some p) false timeout uuid12 inflight st in
  run.1 = set_outbox
            (outbox st ++ [mkPublication (command_topic st command) d result])
            st ∧
  run.2 = match result with
          | Reports rc =>
              if rc =? 0 then Ok PNone
              else Raise (RuntimeError
                            ("MQTT publish failed: rc=" +:+ pretty rc))
          | Fails f => Raise (fault_exn f)
          end.
Proof.
  intros Hup Hp. cbn zeta.
  destruct (send_command L command (Some p) false timeout uuid12 inflight st)
    as [st' r] eqn:Hrun.
  revert Hrun. enter_send Hup. cbn. rewrite Hp. cbn.
  destruct (publish_outcome st (length (outbox st))) as [rc|f]; cbn;
    [destruct (rc =? 0); cbn|]; by intros [= <- <-].
Qed.

Lemma fire_and_forget_witness :
  let run := send_command example_lib "cmd_vel" (Some 0%nat) false 5%float ""
               [example_reply] example_caller in
  run.1 = set_outbox
            [mkPublication "snowbot/SN001/app/cmd_vel" {["id" := PInt 1]}
               (Reports 0)]
            example_caller ∧
  run.2 = Ok PNone.
Proof.
  exact (fire_and_forget example_lib "cmd_vel" 0%nat {["id" := PInt 1]}
           5%float "" [example_reply] example_caller eq_refl eq_refl).
Defined.





Lemma then_signal (m : Py unit) (u : string) (data : pyval) (st : state) :
  preserves tables m →
  u ≠ "" → is_Some (_response_events st !! u) →
  let run := bind m (λ _, signal_waiting_caller (PStr u) data) st in
  match run.2 with
  | Ok _ => _command_responses run.1 !! u = Some data ∧
            _response_events run.1 !! u = Some true
  | Raise _ => tables run.1 = tables st
  end.
Proof.
  intros Hm Hne Hwait. cbn zeta. unfold bind.
  specialize (Hm st). destruct (m st) as [s1 [[]|e]]; cbn [fst] in Hm; [|exact Hm].
  unfold tables in Hm. injection Hm as Hev Hresp.
  unfold signal_waiting_caller, bind, get, lift.
  rewrite waiting_key_found by (by rewrite ?Hev).
  cbn. by rewrite !lookup_insert_eq.
Qed.

(** X14.  A data-feedback frame wakes its caller only when its handler
    returns.  For a frame that carries the id of a waiting request:
    if [_handle_data_feedback] returns, the frame is stored as the
    response and the event is set; if it raises on the way (a payload of
    the wrong shape for its topic), both correlation tables are as before,
    so the caller is not woken by that frame. *)
Theorem feedback_signals_on_return (L : pylib) (t : instant) (data : pyval)
    (u : string) (st : state) :
  carried_req_id data = PStr u →
  u ≠ "" →
  is_Some (_response_events st !! u) →
  let run := _handle_data_feedback L t data st in
  match run.2 with
  | Ok _ => _command_responses run.1 !! u = Some data ∧
            _response_events run.1 !! u = Some true
  | Raise _ => tables run.1 = tables st
  end.
Proof.
  intros Hid Hne Hwait. destruct data as [| | | | | |d]; try done.
  cbn zeta. unfold _handle_data_feedback.
  rewrite carried_req_id_dict, Hid.
  unfold py_get at 1 2. rewrite !bind_lift_ok.
  unfold bind at 1. unfold status_set at 1, modify at 1. cbv beta iota.
  match goal with |- context [bind ?m _ ?s] =>
    apply (then_signal m u (PDict d) s); [|done|done]
  end.
  unfold record_trail. frame.
Qed.

Lemma feedback_signals_on_return_witness :
  let st := set__response_events {["0123456789ab" := false]} example_client in
  let frame := PDict (<["topic" := PStr "runningStatus"]>
                 (<["data" := PInt 1]> {["req_id" := PStr "0123456789ab"]})) in
  let run := _handle_data_feedback example_lib noon frame st in
  run.2 = Raise AttributeError ∧ tables run.1 = tables st.
Proof.
  cbn zeta. split; [by vm_compute|].
  pose proof (feedback_signals_on_return example_lib noon
    (PDict (<["topic" := PStr "runningStatus"]>
       (<["data" := PInt 1]> {["req_id" := PStr "0123456789ab"]})))
    "0123456789ab"
    (set__response_events {["0123456789ab" := false]} example_client)
    eq_refl ltac:(discriminate) ltac:(by eexists)) as H.
  exact H.
Defined.


